(** * english_skills_101: the posting script [script.py]

    A shallow embedding of the single-run batch job: session-cached login,
    schedule selection, asset download, publishing, clean-up and the bounded
    engagement pass.

    The script is glue code around three external collaborators (the
    instagrapi client, the Drive client and pandas).  Every request to one of
    them is an explicit [Call]; an environment answers each call from the
    history of the calls made so far, either with a value or with a Python
    exception.  The local file system, the standard output and the history of
    calls form the state that the script threads through. *)

From Stdlib Require Import ZArith Lia.
From stdpp Require Import base option list strings gmap pretty.

Local Open Scope Z_scope.
Local Open Scope string_scope.

(** ** Python values the script handles *)

(** An instance of a subclass of [Exception]: class name and [str(e)]. *)
Record PyExn := mkExn { exn_class : string; exn_msg : string }.

(** instagrapi [Media]: the two attributes the script reads. *)
Record Media := mkMedia { pk : string; thumbnail_url : string }.

(** instagrapi [UserShort], an element of [media_likers]. *)
Record UserShort := mkUserShort { username : string }.

(** instagrapi [User], the result of [user_info_by_username]. *)
Record UserInfo := mkUserInfo {
  user_pk : string;
  is_private : bool;
  media_count : Z
}.

(** An entry of the ['files'] list of a Drive [files().list] response. *)
Record DriveFile := mkDriveFile { file_id : string; file_name : string }.

(** What one [downloader.next_chunk()] delivers: the bytes it wrote to the
    file handle, [int(status.progress() * 100)] and the [done] flag. *)
Record Chunk := mkChunk {
  chunk_bytes : string;
  chunk_percent : Z;
  chunk_done : bool
}.

(** A line of the schedule, as [pd.read_csv] yields it ([T] is [string]) and
    after the ['Date & Time'] column became UTC instants ([T] is [option Z]:
    nanoseconds since the epoch, or [None] for [NaT], which is how pandas
    reads an empty cell).  [Index] is the label that [read_csv] gave the
    row when it took the first field of the data lines as the index (they
    have one field more than the header then), and [None] under the default
    index, where the label of a row is its position. *)
Record Row (T : Type) := indexed_row {
  Index : option string;
  Date_Time : T;
  File_Path : string;
  Caption : string
}.
Arguments indexed_row {T} _ _ _ _.
Arguments Index {T} _.
Arguments Date_Time {T} _.
Arguments File_Path {T} _.
Arguments Caption {T} _.

(** A row of a frame with the default index. *)
Definition mkRow {T} (date_time : T) (file_path caption : string) : Row T :=
  indexed_row None date_time file_path caption.

(** The labels of an index. *)
Inductive Label :=
  | Position (i : nat)
  | Field (text : string).

Definition row_label {T} (i : nat) (r : Row T) : Label :=
  match Index r with
  | Some text => Field text
  | None => Position i
  end.

Global Instance Label_eq_dec : EqDecision Label.
Proof. solve_decision. Defined.

(** A row that [schedule_df.loc[...]] returns, a pandas Series over the
    four columns of the frame; [None] in a date or a time delta is [NaT]. *)
Record Series := mkSeries {
  row_Date_Time : option Z;
  row_File_Path : string;
  row_Caption : string;
  row_Time_Delta : option Z
}.

(** What [schedule_df.loc[label]] returns: the row that carries the label,
    as a Series, or, when several rows carry it, the frame of these rows. *)
Inductive Selection :=
  | OneRow (row : Series)
  | SeveralRows (label : Label) (rows : list Series).

(** An argument that is a [str], or another object, of which the script
    only takes [str(...)]. *)
Inductive PyName :=
  | Str (text : string)
  | NotStr (text : string).

Definition name_str (name : PyName) : string :=
  match name with
  | Str text => text
  | NotStr text => text
  end.

Coercion Str : string >-> PyName.

(** An instagrapi [Client] object: a handle for the library's own state and
    the two attributes the script assigns. *)
Record Client := mkClient {
  client_id : nat;
  client_username : option string;
  client_password : option string
}.

(** ** Requests to the outside world *)

Inductive Call :=
  | Getenv (name : string)
  | NewClient
  | LoadSettings (cid : nat) (content : string)
  | Relogin (cid : nat)
  | Login (cid : nat) (user password : option string)
  | GetSettings (cid : nat)
  | VideoUpload (cid : nat) (path caption : string)
  | VideoUploadToStory (cid : nat) (path : string)
  | UserIdFromUsername (cid : nat) (name : string)
  | UserMedias (cid : nat) (user_id : string) (amount : nat)
  | MediaLikers (cid : nat) (media_pk : string)
  | UserInfoByUsername (cid : nat) (name : string)
  | MediaLike (cid : nat) (media_pk : string)
  | RandBelow (n : nat)
  | DatetimeNowUtc
  | PdReadCsv (content : string)
  | CredentialsFromInfo (info : option string)
  | DriveBuild (credentials : nat)
  | FilesList (service : nat) (q : string)
  | NextChunk (service : nat) (fileId : string).

(** The type of the answer to each call. *)
Definition resp (c : Call) : Type :=
  match c with
  | Getenv _ => option string
  | NewClient => nat
  | LoadSettings _ _ => unit
  | Relogin _ => bool
  | Login _ _ _ => bool
  | GetSettings _ => string
  | VideoUpload _ _ _ => option string
  | VideoUploadToStory _ _ => option string
  | UserIdFromUsername _ _ => string
  | UserMedias _ _ _ => list Media
  | MediaLikers _ _ => list UserShort
  | UserInfoByUsername _ _ => UserInfo
  | MediaLike _ _ => bool
  | RandBelow _ => nat
  | DatetimeNowUtc => Z
  | PdReadCsv _ => list (Row string)
  | CredentialsFromInfo _ => nat
  | DriveBuild _ => nat
  | FilesList _ _ => list DriveFile
  | NextChunk _ _ => Chunk
  end.

(** A call returns or raises. *)
Inductive Reply (A : Type) :=
  | Returns (a : A)
  | Throws (e : PyExn).
Arguments Returns {A} _.
Arguments Throws {A} _.

(** The environment: the answer to a call given the calls made before it;
    pandas' reading of one ['Date & Time'] cell as a UTC instant, as [NaT],
    or its refusal; [str(...)] of the pandas Series that holds the given
    cells of the named column under the given labels; and the answer of the
    operating system to the opening of a path for writing (the script
    creates no directory and changes no permission, so that the path
    decides). *)
Record Env := environment {
  reply : list Call -> forall c : Call, Reply (resp c);
  to_datetime_utc : string -> Reply (option Z);
  series_str : string -> list (Label * string) -> string;
  open_for_writing : string -> Reply unit
}.

(** ** State and control *)

Record World := mkWorld {
  fs : gmap string string;
  stdout : list string;
  calls : list Call
}.

(** A statement ends normally, with an exception, or the model's loop budget
    ran out under it. *)
Inductive Outcome (A : Type) :=
  | Ok (a : A)
  | Raise (e : PyExn)
  | Diverge.
Arguments Ok {A} _.
Arguments Raise {A} _.
Arguments Diverge {A}.

Definition M (A : Type) : Type := World -> Outcome A * World.

Definition ret {A} (a : A) : M A := fun w => (Ok a, w).

Definition bind {A B} (m : M A) (k : A -> M B) : M B := fun w =>
  match m w with
  | (Ok a, w') => k a w'
  | (Raise e, w') => (Raise e, w')
  | (Diverge, w') => (Diverge, w')
  end.

Definition raise {A} (e : PyExn) : M A := fun w => (Raise e, w).

(** [try: m  except Exception as e: h e] *)
Definition try_except {A} (m : M A) (h : PyExn -> M A) : M A := fun w =>
  match m w with
  | (Raise e, w') => h e w'
  | r => r
  end.

Declare Scope py_scope.
Delimit Scope py_scope with py.
Notation "x <- m ;; k" := (bind m (fun x => k))
  (at level 100, m at next level, right associativity) : py_scope.
Notation "m ;;; k" := (bind m (fun _ => k))
  (at level 100, right associativity) : py_scope.
Local Open Scope py_scope.

Definition print (line : string) : M unit := fun w =>
  (Ok tt, mkWorld (fs w) (stdout w ++ [line]) (calls w)).

(** ** Local files *)

Definition os_path_exists (path : string) : M bool := fun w =>
  (Ok (bool_decide (is_Some (fs w !! path))), w).

Definition FileNotFoundError (path : string) : PyExn :=
  mkExn "FileNotFoundError" ("[Errno 2] No such file or directory: '" +:+ path +:+ "'").

Definition os_remove (path : string) : M unit := fun w =>
  match fs w !! path with
  | Some _ => (Ok tt, mkWorld (delete path (fs w)) (stdout w) (calls w))
  | None => (Raise (FileNotFoundError path), w)
  end.

Definition read_file (path : string) : M string := fun w =>
  match fs w !! path with
  | Some content => (Ok content, w)
  | None => (Raise (FileNotFoundError path), w)
  end.

(** The file at [path] is created or its content replaced: what the opening
    of a file for writing, once granted, and a write to it amount to. *)
Definition write_file (path content : string) : M unit := fun w =>
  (Ok tt, mkWorld (<[path := content]> (fs w)) (stdout w) (calls w)).

(** [fh.write(data)] on a handle opened on [path]. *)
Definition append_file (path data : string) : M unit := fun w =>
  (Ok tt, mkWorld (<[path := default "" (fs w !! path) +:+ data]> (fs w))
                  (stdout w) (calls w)).

Section Script.

Variable env : Env.

Definition call (c : Call) : M (resp c) := fun w =>
  (match reply env (calls w) c with
   | Returns a => Ok a
   | Throws e => Raise e
   end,
   mkWorld (fs w) (stdout w) (calls w ++ [c])).

Definition lift {A} (r : Reply A) : M A := fun w =>
  (match r with Returns a => Ok a | Throws e => Raise e end, w).

(** [open(path, 'w')]: the operating system refuses, or the file is created
    or emptied. *)
Definition open_truncate (path : string) : M unit :=
  lift (open_for_writing env path) ;;;
  write_file path "".

Definition TypeError (msg : string) : PyExn := mkExn "TypeError" msg.

(** [io.FileIO(file_path, 'wb')], which wants a [str] for the path. *)
Definition FileIO_wb (file_path : PyName) : M string :=
  match file_path with
  | Str path => open_truncate path ;;; ret path
  | NotStr _ =>
      raise (TypeError "expected str, bytes or os.PathLike object, not Series")
  end.

(** [for x in l: body x] *)
Fixpoint for_each {A} (l : list A) (body : A -> M unit) : M unit :=
  match l with
  | [] => ret tt
  | x :: l' => body x ;;; for_each l' body
  end.

(** [random.choice(seq)]: [seq[self._randbelow(len(seq))]]. *)
Definition IndexError (msg : string) : PyExn := mkExn "IndexError" msg.

Definition random_choice {A} (seq : list A) : M A :=
  match seq with
  | [] => raise (IndexError "Cannot choose from an empty sequence")
  | _ :: _ =>
      i <- call (RandBelow (length seq)) ;;
      match seq !! (i mod length seq)%nat with
      | Some x => ret x
      | None => raise (IndexError "list index out of range")
      end
  end.

(** *** [login_with_session] (script.py, lines 12-39) *)

(** [client.load_settings(path)]: the file is read and handed to the
    library. *)
Definition load_settings (client : Client) (path : string) : M unit :=
  content <- read_file path ;;
  call (LoadSettings (client_id client) content).

(** [client.dump_settings(path)]: the file is opened for writing, then the
    settings are serialised into it. *)
Definition dump_settings (client : Client) (path : string) : M unit :=
  open_truncate path ;;;
  settings <- call (GetSettings (client_id client)) ;;
  write_file path settings.

(** Lines 23-24: [client.username = username; client.password = password]. *)
Definition set_credentials (client : Client) (username password : option string)
    : Client :=
  mkClient (client_id client) username password.

(** Lines 35-39, the fresh login. *)
Definition fresh_login (client : Client) (username password : option string)
    (session_file_path : string) : M Client :=
  call (Login (client_id client) username password) ;;;
  dump_settings client session_file_path ;;;
  print "Logged in and session saved" ;;;
  ret client.

(** The [if] block of lines 25-33 yields [Some client] where the source
    returns from inside the [try], and [None] where control falls through to
    line 35. *)
Definition login_with_session (client : Client) (username password : option string)
    (session_file_path : string) : M Client :=
  let client := set_credentials client username password in
  found <- os_path_exists session_file_path ;;
  returned <-
    (if (found : bool) then
       load_settings client session_file_path ;;;
       try_except
         (call (Relogin (client_id client)) ;;;
          print "Session loaded successfully" ;;;
          ret (Some client))
         (fun e =>
            print ("Relogin failed: " +:+ exn_msg e +:+ ", performing a fresh login") ;;;
            ret None)
     else ret None) ;;
  match returned with
  | Some c => ret c
  | None => fresh_login client username password session_file_path
  end.

(** *** [download_file_from_drive] (lines 42-86) *)

(** The [while not done] loop of lines 81-83; [fuel] bounds the number of
    iterations the model follows. *)
Fixpoint download_chunks (fuel : nat) (service : nat) (fileId file_path : string)
    : M unit :=
  match fuel with
  | O => fun w => (Diverge, w)
  | S fuel' =>
      status <- call (NextChunk service fileId) ;;
      append_file file_path (chunk_bytes status) ;;;
      print ("Download progress: " +:+ pretty (chunk_percent status) +:+ "%") ;;;
      if chunk_done status then ret tt
      else download_chunks fuel' service fileId file_path
  end.

Definition folder_query (folder_name : string) : string :=
  "name = '" +:+ folder_name +:+ "' and mimeType = 'application/vnd.google-apps.folder'".

Definition file_query (file_name folder_id : string) : string :=
  "name = '" +:+ file_name +:+ "' and '" +:+ folder_id +:+ "' in parents".

(** The result is [None] or the local path.  [file_name] is what the main
    block took from the schedule: a [str], or a pandas Series when [loc]
    returned a frame; the f-strings take its [str(...)]. *)
Definition download_file_from_drive (fuel : nat) (service : nat)
    (folder_name : string) (file_name : PyName) : M (option string) :=
  folders <- call (FilesList service (folder_query folder_name)) ;;
  match folders with
  | [] =>
      print ("Folder '" +:+ folder_name +:+ "' not found.") ;;;
      ret None
  | folder :: _ =>
      let folder_id := file_id folder in
      print ("Found folder '" +:+ folder_name +:+ "' with ID: " +:+ folder_id) ;;;
      files <- call (FilesList service (file_query (name_str file_name) folder_id)) ;;
      match files with
      | [] =>
          print ("File '" +:+ name_str file_name +:+ "' not found in folder '"
                 +:+ folder_name +:+ "'.") ;;;
          ret None
      | file :: _ =>
          let fileId := file_id file in
          print ("Found file '" +:+ name_str file_name +:+ "' with ID: " +:+ fileId) ;;;
          let file_path := file_name in
          path <- FileIO_wb file_path ;;
          download_chunks fuel service fileId path ;;;
          print ("File '" +:+ name_str file_name +:+ "' downloaded successfully to '"
                 +:+ name_str file_path +:+ "'.") ;;;
          ret (Some path)
      end
  end.

(** *** [upload_video_and_story] (lines 89-102) *)

(** The library may leave a generated thumbnail at [path + '.jpg']; the
    answer to an upload call carries its content when it does. *)
Definition store_thumbnail (video_path : string) (thumbnail : option string) : M unit :=
  match thumbnail with
  | Some image => write_file (video_path +:+ ".jpg") image
  | None => ret tt
  end.

Definition upload_video_and_story (client : Client) (video_path caption : string)
    : M unit :=
  thumbnail <- call (VideoUpload (client_id client) video_path caption) ;;
  store_thumbnail video_path thumbnail ;;;
  print ("Video uploaded as a post with caption: " +:+ caption) ;;;
  thumbnail <- call (VideoUploadToStory (client_id client) video_path) ;;
  store_thumbnail video_path thumbnail ;;;
  print "Video uploaded as a story".

(** *** [get_closest_media_row] (lines 105-119) *)

Definition ValueError (msg : string) : PyExn := mkExn "ValueError" msg.
Definition KeyError (msg : string) : PyExn := mkExn "KeyError" msg.


(** [pd.to_datetime(column).dt.tz_localize('UTC')], cell by cell. *)
Fixpoint to_datetime_column (df : list (Row string))
    : Reply (list (Row (option Z))) :=
  match df with
  | [] => Returns []
  | r :: df' =>
      match to_datetime_utc env (Date_Time r) with
      | Throws e => Throws e
      | Returns t =>
          match to_datetime_column df' with
          | Throws e => Throws e
          | Returns rows =>
              Returns (indexed_row (Index r) t (File_Path r) (Caption r) :: rows)
          end
      end
  end.

(** Line 116, [(schedule_df['Date & Time'] - current_time_utc).abs()]
    (pandas 2): the differences are 64-bit counts of nanoseconds, and the
    subtraction raises [OverflowError] when one of them does not fit; the
    difference of [NaT] is [NaT]. *)
Definition OverflowError (msg : string) : PyExn := mkExn "OverflowError" msg.

Definition INT64_MAX : Z := 2 ^ 63 - 1.

Fixpoint time_delta_column (current_time_utc : Z) (df : list (Row (option Z)))
    : Reply (list (option Z)) :=
  match df with
  | [] => Returns []
  | r :: df' =>
      match time_delta_column current_time_utc df' with
      | Throws e => Throws e
      | Returns deltas =>
          match Date_Time r with
          | None => Returns (None :: deltas)
          | Some t =>
              if (Z.abs (t - current_time_utc) <=? INT64_MAX)%Z
              then Returns (Some (Z.abs (t - current_time_utc)) :: deltas)
              else Throws (OverflowError "Overflow in int64 addition")
          end
      end
  end.

(** The scan behind [Series.idxmin] with [skipna=True]: the position of the
    first occurrence of the least value that is not [NaT]; [best] is the
    least value seen so far with its position. *)
Fixpoint idxmin_scan (best : option (nat * Z)) (i : nat) (column : list (option Z))
    : option nat :=
  match column with
  | [] => fst <$> best
  | None :: column' => idxmin_scan best (S i) column'
  | Some x :: column' =>
      match best with
      | Some (_, least) =>
          if (x <? least)%Z then idxmin_scan (Some (i, x)) (S i) column'
          else idxmin_scan best (S i) column'
      | None => idxmin_scan (Some (i, x)) (S i) column'
      end
  end.

(** [Series.idxmin()] on a column (pandas 2): [ValueError] on the empty
    column; no position, for which pandas returns the label [nan] with a
    warning, when every value is [NaT]. *)
Definition idxmin (column : list (option Z)) : Reply (option nat) :=
  match column with
  | [] => Throws (ValueError "attempt to get argmin of an empty sequence")
  | _ :: _ => Returns (idxmin_scan None 0 column)
  end.

(** The frame of line 117: every row under its label, with its entry of the
    ['Time Delta'] column. *)
Fixpoint labelled_from (i : nat) (df : list (Row (option Z)))
    (time_delta : list (option Z)) : list (Label * Series) :=
  match df, time_delta with
  | r :: df', d :: time_delta' =>
      (row_label i r, mkSeries (Date_Time r) (File_Path r) (Caption r) d)
        :: labelled_from (S i) df' time_delta'
  | _, _ => []
  end.

Definition labelled_frame (df : list (Row (option Z))) (time_delta : list (option Z))
    : list (Label * Series) :=
  labelled_from 0 df time_delta.

Definition label_repr (l : Label) : string :=
  match l with
  | Position i => pretty i
  | Field text => "'" +:+ text +:+ "'"
  end.

(** [schedule_df.loc[label]]: [KeyError] for [nan] and for a label that no
    row carries, the row for a label that one row carries, the frame of the
    rows for a label that several rows carry. *)
Definition loc (frame : list (Label * Series)) (label : option Label) : Reply Selection :=
  match label with
  | None => Throws (KeyError "nan")
  | Some l =>
      match filter (fun entry => fst entry = l) frame with
      | [] => Throws (KeyError (label_repr l))
      | [entry] => Returns (OneRow (snd entry))
      | entries => Returns (SeveralRows l (snd <$> entries))
      end
  end.

(** Lines 115-119 on the parsed frame and the reference instant. *)
Definition closest_media_row (df : list (Row (option Z))) (current_time_utc : Z)
    : Reply Selection :=
  match time_delta_column current_time_utc df with
  | Throws e => Throws e
  | Returns time_delta =>
      match idxmin time_delta with
      | Throws e => Throws e
      | Returns position =>
          let frame := labelled_frame df time_delta in
          loc frame (position ≫= fun i => fst <$> frame !! i)
      end
  end.

Definition get_closest_media_row (schedule_csv_path : string) : M Selection :=
  content <- read_file schedule_csv_path ;;
  raw <- call (PdReadCsv content) ;;
  schedule_df <- lift (to_datetime_column raw) ;;
  current_time_utc <- call DatetimeNowUtc ;;
  lift (closest_media_row schedule_df current_time_utc).

(** [Series.empty] and [DataFrame.empty]: whether the object has no entries;
    a row of the frame has one entry per column, and a frame is empty when
    it has no row or no column. *)
Definition Series_size (s : Series) : nat := 4.
Definition Series_empty (s : Series) : bool := Nat.eqb (Series_size s) 0.

Definition DataFrame_empty (rows : list Series) : bool :=
  Nat.eqb (length rows) 0 || Nat.eqb 4 0.

Definition Selection_empty (media_row : Selection) : bool :=
  match media_row with
  | OneRow row => Series_empty row
  | SeveralRows _ rows => DataFrame_empty rows
  end.

(** *** [get_random_likers_from_targets] (lines 122-153) *)

(** The body of the [try] of lines 135-150. *)
Definition get_random_likers_try (target_usernames : list string) (cl : Client)
    : M (list string) :=
  target_username <- random_choice target_usernames ;;
  print ("Randomly selected username: " +:+ target_username) ;;;
  user_id <- call (UserIdFromUsername (client_id cl) target_username) ;;
  print ("User ID for " +:+ target_username +:+ ": " +:+ user_id) ;;;
  media_list <- call (UserMedias (client_id cl) user_id 10) ;;
  match media_list with
  | [] =>
      print ("No posts found for " +:+ target_username) ;;;
      ret []
  | _ :: _ =>
      random_post <- random_choice media_list ;;
      print ("Selected media: " +:+ pk random_post +:+ ", URL: "
             +:+ thumbnail_url random_post) ;;;
      likers <- call (MediaLikers (client_id cl) (pk random_post)) ;;
      ret (take 10 (map username likers))
  end.

Definition get_random_likers_from_targets (target_usernames : list string)
    (cl : Client) : M (list string) :=
  try_except (get_random_likers_try target_usernames cl)
    (fun e =>
       print ("Error fetching likers: " +:+ exn_msg e) ;;;
       ret []).

(** *** [process_usernames] (lines 156-176) *)

(** The body of the loop of lines 172-174. *)
Definition like_post (cl : Client) (media : Media) : M unit :=
  call (MediaLike (client_id cl) (pk media)) ;;;
  print ("Liked post: " +:+ pk media).

(** The body of the [try] of lines 168-174. *)
Definition process_user (cl : Client) (user : string) : M unit :=
  user_info <- call (UserInfoByUsername (client_id cl) user) ;;
  if negb (is_private user_info) && (media_count user_info >? 4)%Z then
    print ("Processing public user: " +:+ user) ;;;
    media_list <- call (UserMedias (client_id cl) (user_pk user_info) 4) ;;
    for_each media_list (like_post cl)
  else ret tt.

Definition process_usernames (usernames : list string) (cl : Client) : M unit :=
  for_each usernames (fun user =>
    try_except (process_user cl user)
      (fun e => print ("Error processing user " +:+ user +:+ ": " +:+ exn_msg e))).

(** *** The main block (lines 180-220) *)

Definition SESSION_FILE_PATH : string := "insta_session.json".

Definition target_usernames : list string :=
  ["howimetyourmotherthefanpage"; "itstedntracy"; "himymfeeds"; "himymaddiict";
   "friendsadiction"].

(** Truth value of a list and of the result of [download_file_from_drive]. *)
Definition list_truthy {A} (l : list A) : bool :=
  match l with [] => false | _ :: _ => true end.

Definition path_truthy (p : option string) : bool :=
  match p with
  | None => false
  | Some s => negb (String.eqb s "")
  end.

(** Lines 217-220. *)
Definition main_engage (INSTAGRAM_USERNAME INSTAGRAM_PASSWORD : option string)
    (usernames : list string) : M unit :=
  if list_truthy usernames then
    cid <- call NewClient ;;
    instagram_client <-
      login_with_session (mkClient cid None None) INSTAGRAM_USERNAME
        INSTAGRAM_PASSWORD SESSION_FILE_PATH ;;
    process_usernames usernames instagram_client
  else ret tt.

(** Lines 209-212. *)
Definition main_cleanup (media_path : string) : M unit :=
  os_remove media_path ;;;
  let jpg_file_path := media_path +:+ ".jpg" in
  found <- os_path_exists jpg_file_path ;;
  if (found : bool) then os_remove jpg_file_path else ret tt.

(** Lines 208-220, the body of [if media_path:]. *)
Definition main_publish (INSTAGRAM_USERNAME INSTAGRAM_PASSWORD : option string)
    (instagram_client : Client) (media_path caption : string) : M unit :=
  upload_video_and_story instagram_client media_path caption ;;;
  main_cleanup media_path ;;;
  usernames <- get_random_likers_from_targets target_usernames instagram_client ;;
  main_engage INSTAGRAM_USERNAME INSTAGRAM_PASSWORD usernames.

(** Lines 203-220, the body of [if not media_row.empty:]. *)
Definition main_media (fuel : nat) (INSTAGRAM_USERNAME INSTAGRAM_PASSWORD : option string)
    (instagram_client : Client) (service : nat) (media_row : Series) : M unit :=
  let file_name := row_File_Path media_row in
  let caption := row_Caption media_row in
  media_path <- download_file_from_drive fuel service "english_skills_101" file_name ;;
  match media_path with
  | Some path =>
      if path_truthy media_path then
        main_publish INSTAGRAM_USERNAME INSTAGRAM_PASSWORD instagram_client path caption
      else ret tt
  | None => ret tt
  end.

(** The same lines when [media_row] is a frame: [media_row['File Path']]
    and [media_row["Caption"]] are Series then.  Line 78 raises for a file
    name that is not a [str], so that no path comes back from the download
    and the caption, which stands here as its [str(...)], is never used. *)
Definition main_media_frame (fuel : nat)
    (INSTAGRAM_USERNAME INSTAGRAM_PASSWORD : option string)
    (instagram_client : Client) (service : nat) (label : Label) (rows : list Series)
    : M unit :=
  let file_name :=
    NotStr (series_str env "File Path" ((fun row => (label, row_File_Path row)) <$> rows)) in
  let caption :=
    NotStr (series_str env "Caption" ((fun row => (label, row_Caption row)) <$> rows)) in
  media_path <- download_file_from_drive fuel service "english_skills_101" file_name ;;
  match media_path with
  | Some path =>
      if path_truthy media_path then
        main_publish INSTAGRAM_USERNAME INSTAGRAM_PASSWORD instagram_client path
          (name_str caption)
      else ret tt
  | None => ret tt
  end.

(** Lines 182-201: credentials, the first login, the Drive service and the
    schedule row. *)
Definition main_setup : M (option string * option string * Client * nat * Selection) :=
  INSTAGRAM_USERNAME <- call (Getenv "INSTAGRAM_USERNAME") ;;
  INSTAGRAM_PASSWORD <- call (Getenv "INSTAGRAM_PASSWORD") ;;
  SERVICE_ACCOUNT_INFO <- call (Getenv "GOOGLE_CREDENTIAL") ;;
  cid <- call NewClient ;;
  instagram_client <-
    login_with_session (mkClient cid None None) INSTAGRAM_USERNAME
      INSTAGRAM_PASSWORD SESSION_FILE_PATH ;;
  credentials <- (call (CredentialsFromInfo SERVICE_ACCOUNT_INFO) : M nat) ;;
  service <- (call (DriveBuild credentials) : M nat) ;;
  media_row <- get_closest_media_row "media_schedule.csv" ;;
  ret (INSTAGRAM_USERNAME, INSTAGRAM_PASSWORD, instagram_client, service, media_row).

Definition main (fuel : nat) : M unit :=
  setup <- main_setup ;;
  let '(INSTAGRAM_USERNAME, INSTAGRAM_PASSWORD, instagram_client, service, media_row) :=
    setup in
  if negb (Selection_empty media_row) then
    match media_row with
    | OneRow row =>
        main_media fuel INSTAGRAM_USERNAME INSTAGRAM_PASSWORD instagram_client service
          row
    | SeveralRows label rows =>
        main_media_frame fuel INSTAGRAM_USERNAME INSTAGRAM_PASSWORD instagram_client
          service label rows
    end
  else ret tt.

End Script.

(** ** Sample environments

    Concrete collaborators on which the script can be run by evaluation. *)

(** Every call succeeds with an empty or neutral answer. *)
Definition quiet_reply (c : Call) : Reply (resp c) :=
  match c return Reply (resp c) with
  | Getenv _ => Returns (Some "secret")
  | NewClient => Returns 7%nat
  | LoadSettings _ _ => Returns tt
  | Relogin _ => Returns true
  | Login _ _ _ => Returns true
  | GetSettings _ => Returns "{}"
  | VideoUpload _ _ _ => Returns None
  | VideoUploadToStory _ _ => Returns None
  | UserIdFromUsername _ _ => Returns "4242"
  | UserMedias _ _ _ => Returns []
  | MediaLikers _ _ => Returns []
  | UserInfoByUsername _ _ => Returns (mkUserInfo "0" true 0)
  | MediaLike _ _ => Returns true
  | RandBelow _ => Returns 0%nat
  | DatetimeNowUtc => Returns 1000
  | PdReadCsv _ => Returns []
  | CredentialsFromInfo _ => Returns 1%nat
  | DriveBuild _ => Returns 2%nat
  | FilesList _ _ => Returns []
  | NextChunk _ _ => Returns (mkChunk "" 100 true)
  end.

(** Cells are read through a small table of instants; the empty cell is
    [NaT]; anything else is rejected, as an unparseable date is. *)
Definition table_datetime (cell : string) : Reply (option Z) :=
  match list_find (fun '(k, _) => k = cell)
          [("", None); ("t0", Some 0%Z); ("t1", Some 1000%Z); ("t2", Some 2000%Z);
           ("t5", Some 5000%Z);
           ("1700-01-01 00:00:00", Some (-8520336000000000000)%Z);
           ("2026-05-28 00:00:00", Some 1779926400000000000%Z);
           ("2026-05-29 00:00:00", Some 1780012800000000000%Z)] with
  | Some (_, (_, t)) => Returns t
  | None => Throws (mkExn "DateParseError" cell)
  end.

(** A Series is printed one cell per line, and every path but those under
    the directory [nodir] or [sub] can be opened for writing. *)
Definition plain_series_str (name : string) (cells : list (Label * string)) : string :=
  foldr (fun cell rest => snd cell +:+ "; " +:+ rest) ("Name: " +:+ name) cells.

Definition directory_missing (path : string) : bool :=
  bool_decide (String.prefix "nodir/" path = true \/ String.prefix "sub/" path = true).

Definition sample_open (path : string) : Reply unit :=
  if directory_missing path then Throws (FileNotFoundError path) else Returns tt.

Definition mkEnv (answers : list Call -> forall c : Call, Reply (resp c))
    (dates : string -> Reply (option Z)) : Env :=
  environment answers dates plain_series_str sample_open.

Definition quiet_env : Env := mkEnv (fun _ c => quiet_reply c) table_datetime.

(** A schedule of three rows, the last two at the same distance from the
    reference instant [1000] of [quiet_reply]. *)
Definition three_rows : list (Row string) :=
  [mkRow "t5" "far.mp4" "far"; mkRow "t0" "x.mp4" "hello"; mkRow "t2" "y.mp4" "tie"].

Definition three_rows_dates : list (option Z) := [Some 5000%Z; Some 0%Z; Some 2000%Z].

Definition schedule_env (rows : list (Row string)) : Env :=
  mkEnv (fun _ c =>
           match c return Reply (resp c) with
           | PdReadCsv _ => Returns rows
           | c' => quiet_reply c'
           end)
        table_datetime.


(** A Drive that holds the folder and one video, served in two chunks: the
    answer to [next_chunk] depends on how many chunks were requested. *)
Definition drive_files (q : string) : list DriveFile :=
  if String.eqb q "name = 'english_skills_101' and mimeType = 'application/vnd.google-apps.folder'"
  then [mkDriveFile "F1" "english_skills_101"; mkDriveFile "F2" "english_skills_101"]
  else if String.eqb q "name = 'x.mp4' and 'F1' in parents"
  then [mkDriveFile "X1" "x.mp4"]
  else if String.eqb q "name = 'sub/x.mp4' and 'F1' in parents"
  then [mkDriveFile "S1" "sub/x.mp4"]
  else [].

Definition is_next_chunk (c : Call) : bool :=
  match c with NextChunk _ _ => true | _ => false end.



(** The feed upload is refused; the story upload is refused; the library
    leaves a thumbnail next to the video. *)
Definition upload_fails_env : Env :=
  mkEnv (fun _ c =>
           match c return Reply (resp c) with
           | VideoUpload _ _ _ => Throws (mkExn "VideoNotUpload" "feed upload failed")
           | c' => quiet_reply c'
           end)
        table_datetime.

Definition story_fails_env : Env :=
  mkEnv (fun _ c =>
           match c return Reply (resp c) with
           | VideoUploadToStory _ _ => Throws (mkExn "VideoNotUpload" "story upload failed")
           | c' => quiet_reply c'
           end)
        table_datetime.

Definition thumbnail_env : Env :=
  mkEnv (fun _ c =>
           match c return Reply (resp c) with
           | VideoUpload _ _ _ => Returns (Some "JFIF")
           | c' => quiet_reply c'
           end)
        table_datetime.

Definition video_file : gmap string string := {[ "x.mp4" := "RIFFdata" ]}.

(** A complete run: one scheduled video, found on the Drive, uploaded with a
    thumbnail; the sampled post has four likers, of whom the first is public
    with twelve posts, the second private, the third has four posts, and the
    lookup of the fourth fails. *)
Definition sample_user (name : string) : Reply UserInfo :=
  if String.eqb name "alice" then Returns (mkUserInfo "A" false 12)
  else if String.eqb name "bob" then Returns (mkUserInfo "B" true 30)
  else if String.eqb name "carol" then Returns (mkUserInfo "C" false 4)
  else Throws (mkExn "UserNotFound" "no such user").

Definition sample_medias (user_id : string) : list Media :=
  if String.eqb user_id "4242" then [mkMedia "p1" "u1"; mkMedia "p2" "u2"]
  else if String.eqb user_id "A"
  then [mkMedia "a1" ""; mkMedia "a2" ""; mkMedia "a3" ""; mkMedia "a4" ""]
  else [].

Definition happy_reply (history : list Call) (c : Call) : Reply (resp c) :=
  match c return Reply (resp c) with
  | PdReadCsv _ => Returns [mkRow "t1" "x.mp4" "hello"]
  | FilesList _ q => Returns (drive_files q)
  | NextChunk _ _ =>
      match filter (fun c => is_next_chunk c = true) history with
      | [] => Returns (mkChunk "RIFF" 50 false)
      | _ :: _ => Returns (mkChunk "data" 100 true)
      end
  | VideoUpload _ _ _ => Returns (Some "JFIF")
  | UserMedias _ user_id _ => Returns (sample_medias user_id)
  | MediaLikers _ _ =>
      Returns [mkUserShort "alice"; mkUserShort "bob"; mkUserShort "carol";
               mkUserShort "dave"]
  | UserInfoByUsername _ name => sample_user name
  | RandBelow _ => Returns 1%nat
  | c' => quiet_reply c'
  end.

Definition happy_env : Env := mkEnv happy_reply table_datetime.

(** The same run, except that the feed upload is refused. *)
Definition refused_env : Env :=
  mkEnv (fun history c =>
           match c return Reply (resp c) with
           | VideoUpload _ _ _ => Throws (mkExn "VideoNotUpload" "feed upload failed")
           | c' => happy_reply history c'
           end)
        table_datetime.

(** The same run, except that the sampled account has no posts. *)
Definition no_posts_env : Env :=
  mkEnv (fun history c =>
           match c return Reply (resp c) with
           | UserMedias _ _ _ => Returns []
           | c' => happy_reply history c'
           end)
        table_datetime.

(** The state in which the complete run arrives at the upload: the session
    was saved and the video downloaded. *)
Definition secret_client : Client := mkClient 7 (Some "secret") (Some "secret").

Definition at_publish : World :=
  mkWorld
    (<["x.mp4" := "RIFFdata"]>
       (<["insta_session.json" := "{}"]>
          {[ "media_schedule.csv" := "Date & Time,File Path,Caption" ]}))
    ["Logged in and session saved";
     "Found folder 'english_skills_101' with ID: F1";
     "Found file 'x.mp4' with ID: X1"; "Download progress: 50%";
     "Download progress: 100%";
     "File 'x.mp4' downloaded successfully to 'x.mp4'."]
    [Getenv "INSTAGRAM_USERNAME"; Getenv "INSTAGRAM_PASSWORD";
     Getenv "GOOGLE_CREDENTIAL"; NewClient;
     Login 7 (Some "secret") (Some "secret"); GetSettings 7;
     CredentialsFromInfo (Some "secret"); DriveBuild 1;
     PdReadCsv "Date & Time,File Path,Caption"; DatetimeNowUtc;
     FilesList 2 "name = 'english_skills_101' and mimeType = 'application/vnd.google-apps.folder'";
     FilesList 2 "name = 'x.mp4' and 'F1' in parents";
     NextChunk 2 "X1"; NextChunk 2 "X1"].

(** The complete run after both uploads: the thumbnail is in place. *)
Definition after_upload : World :=
  mkWorld (<["x.mp4.jpg" := "JFIF"]> (fs at_publish))
    (stdout at_publish
       ++ ["Video uploaded as a post with caption: hello"; "Video uploaded as a story"])
    (calls at_publish ++ [VideoUpload 7 "x.mp4" "hello"; VideoUploadToStory 7 "x.mp4"]).

(** The account lookup of the sampler is refused. *)
Definition lookup_fails_env : Env :=
  mkEnv (fun history c =>
           match c return Reply (resp c) with
           | UserIdFromUsername _ _ => Throws (mkExn "UserNotFound" "target is gone")
           | c' => happy_reply history c'
           end)
        table_datetime.

Definition session_file : gmap string string :=
  {[ SESSION_FILE_PATH := "{stale}" ]}.

Definition new_client : Client := mkClient 7 None None.

Definition start_world (files : gmap string string) : World := mkWorld files [] [].

Definition schedule_file : gmap string string :=
  {[ "media_schedule.csv" := "Date & Time,File Path,Caption" ]}.

(** The stored session cannot be read; the stored session is refused and
    the credentials are refused as well. *)
Definition corrupt_session_env : Env :=
  mkEnv (fun _ c =>
           match c return Reply (resp c) with
           | LoadSettings _ _ => Throws (mkExn "JSONDecodeError" "Expecting value")
           | c' => quiet_reply c'
           end)
        table_datetime.

Definition locked_out_env : Env :=
  mkEnv (fun _ c =>
           match c return Reply (resp c) with
           | Relogin _ => Throws (mkExn "LoginRequired" "login_required")
           | Login _ _ _ => Throws (mkExn "BadPassword" "bad password")
           | c' => quiet_reply c'
           end)
        table_datetime.

(** The Drive is unreachable; the Drive answers the folder query only; the
    connection breaks after the first chunk. *)
Definition drive_down_env : Env :=
  mkEnv (fun _ c =>
           match c return Reply (resp c) with
           | FilesList _ _ => Throws (mkExn "HttpError" "503")
           | c' => quiet_reply c'
           end)
        table_datetime.

Definition files_query_fails_env : Env :=
  mkEnv (fun history c =>
           match c return Reply (resp c) with
           | FilesList _ q =>
               match history with
               | [] => Returns (drive_files q)
               | _ :: _ => Throws (mkExn "HttpError" "400")
               end
           | c' => quiet_reply c'
           end)
        table_datetime.

Definition broken_download_env : Env :=
  mkEnv (fun history c =>
           match c return Reply (resp c) with
           | FilesList _ q => Returns (drive_files q)
           | NextChunk _ _ =>
               match filter (fun c => is_next_chunk c = true) history with
               | [] => Returns (mkChunk "RIFF" 50 false)
               | _ :: _ => Throws (mkExn "HttpError" "connection reset")
               end
           | c' => quiet_reply c'
           end)
        table_datetime.

Definition old_video_file : gmap string string := {[ "x.mp4" := "old video" ]}.

(** pandas cannot parse the schedule file. *)
Definition csv_broken_env : Env :=
  mkEnv (fun _ c =>
           match c return Reply (resp c) with
           | PdReadCsv _ => Throws (mkExn "ParserError" "Error tokenizing data")
           | c' => quiet_reply c'
           end)
        table_datetime.

(** A schedule whose second date cannot be read, and one with two rows at
    the reference instant [1000]. *)
Definition rows_with_bad_date : list (Row string) :=
  [mkRow "t0" "x.mp4" "hello"; mkRow "soon" "y.mp4" "when?"; mkRow "t1" "z.mp4" "now"].

Definition rows_with_now : list (Row string) :=
  [mkRow "t2" "late.mp4" "late"; mkRow "t1" "x.mp4" "hello"; mkRow "t0" "early.mp4" "early";
   mkRow "t1" "again.mp4" "again"].

Definition rows_with_now_dates : list (option Z) :=
  [Some 2000%Z; Some 1000%Z; Some 0%Z; Some 1000%Z].





Definition rows_with_gap : list (Row string) :=
  [mkRow "t5" "far.mp4" "far"; mkRow "" "draft.mp4" "draft"; mkRow "t0" "x.mp4" "hello"].

Definition rows_with_gap_dates : list (option Z) := [Some 5000%Z; None; Some 0%Z].


(** The sampled post has twelve likers; the third like of the public
    account is refused. *)
Definition twelve_likers : list UserShort :=
  map mkUserShort
    ["l01"; "l02"; "l03"; "l04"; "l05"; "l06"; "l07"; "l08"; "l09"; "l10"; "l11"; "l12"].

Definition many_likers_env : Env :=
  mkEnv (fun history c =>
           match c return Reply (resp c) with
           | MediaLikers _ _ => Returns twelve_likers
           | c' => happy_reply history c'
           end)
        table_datetime.

Definition like_fails_env : Env :=
  mkEnv (fun history c =>
           match c return Reply (resp c) with
           | MediaLike _ media_pk =>
               if String.eqb media_pk "a3"
               then Throws (mkExn "FeedbackRequired" "feedback_required")
               else Returns true
           | c' => happy_reply history c'
           end)
        table_datetime.

(** The listing of the posts of the sampled account is refused; the request
    of the likers is refused. *)
Definition medias_fail_env : Env :=
  mkEnv (fun history c =>
           match c return Reply (resp c) with
           | UserMedias _ _ _ => Throws (mkExn "PrivateError" "private account")
           | c' => happy_reply history c'
           end)
        table_datetime.

Definition likers_fail_env : Env :=
  mkEnv (fun history c =>
           match c return Reply (resp c) with
           | MediaLikers _ _ => Throws (mkExn "ClientThrottledError" "rate limited")
           | c' => happy_reply history c'
           end)
        table_datetime.

(** * Vocabulary of the properties *)

Local Open Scope list_scope.

(** [k] is the position of the first least entry of the column that is not
    [NaT], and [m] is that entry. *)
Definition first_least (column : list (option Z)) (k : nat) (m : Z) : Prop :=
  column !! k = Some (Some m) /\
  (forall j x, column !! j = Some (Some x) -> (m <= x)%Z) /\
  (forall j x, column !! j = Some (Some x) -> (j < k)%nat -> (m < x)%Z).

(** The labels of the index of a frame, from the position [i] on. *)
Fixpoint labels_from {T} (i : nat) (df : list (Row T)) : list Label :=
  match df with
  | [] => []
  | r :: df' => row_label i r :: labels_from (S i) df'
  end.

Definition index_labels {T} (df : list (Row T)) : list Label := labels_from 0 df.

(** The frame after line 110, given the instant read in each date cell. *)
Definition with_dates (raw : list (Row string)) (dates : list (option Z))
    : list (Row (option Z)) :=
  zip_with (fun r t => indexed_row (Index r) t (File_Path r) (Caption r)) raw dates.

(** The distance of an instant from [now]; [NaT] has none. *)
Definition time_delta (now : Z) (t : option Z) : option Z :=
  (fun x => Z.abs (x - now)) <$> t.

(** What [idxmin_scan] knows after the entries [pre]: nothing as long as
    every entry was [NaT], and the first least entry otherwise. *)
Definition scanned (pre : list (option Z)) (best : option (nat * Z)) : Prop :=
  match best with
  | Some (k, m) => first_least pre k m
  | None => forall j x, pre !! j <> Some (Some x)
  end.

(** What a sequence of chunks amounts to. *)
Definition concat_bytes (chunks : list Chunk) : string :=
  foldr (fun c rest => chunk_bytes c +:+ rest) "" chunks.

Definition progress_line (c : Chunk) : string :=
  "Download progress: " +:+ pretty (chunk_percent c) +:+ "%".

(** The environment answers the successive [next_chunk] requests that start
    after [history] with [chunks], in this order. *)
Fixpoint serves (env : Env) (history : list Call) (service : nat) (fileId : string)
    (chunks : list Chunk) : Prop :=
  match chunks with
  | [] => True
  | c :: chunks' =>
      reply env history (NextChunk service fileId) = Returns c /\
      serves env (history ++ [NextChunk service fileId]) service fileId chunks'
  end.

(** The file system after the library stored (or did not store) a
    thumbnail next to the video. *)
Definition with_thumbnail (video_path : string) (thumbnail : option string)
    (files : gmap string string) : gmap string string :=
  match thumbnail with
  | Some image => <[video_path +:+ ".jpg" := image]> files
  | None => files
  end.

(** The main block arrives at line 208 in world [w] with these values. *)
Definition main_reaches_publish (env : Env) (fuel : nat) (w0 : World)
    (user pass : option string) (client : Client) (media_path caption : string)
    (w : World) : Prop :=
  exists service media_row w1,
    main_setup env w0 = (Ok (user, pass, client, service, OneRow media_row), w1) /\
    download_file_from_drive env fuel service "english_skills_101"
        (row_File_Path media_row) w1 = (Ok (Some media_path), w) /\
    media_path <> "" /\
    caption = row_Caption media_row.

(** [m] removes no file whose path satisfies [keep]. *)
Definition keeps {A} (keep : string -> Prop) (m : M A) : Prop :=
  forall w path, keep path -> is_Some (fs w !! path) -> is_Some (fs (snd (m w)) !! path).

(** The number of like requests in a sequence of calls. *)
Fixpoint likes (made : list Call) : nat :=
  match made with
  | [] => 0
  | MediaLike _ _ :: made' => S (likes made')
  | _ :: made' => likes made'
  end.

(** The library honours [amount=4]: [user_medias] returns at most four
    posts when four are asked for. *)
Definition amount_respected (env : Env) : Prop :=
  forall history cid user_id medias,
    reply env history (UserMedias cid user_id 4) = Returns medias ->
    (length medias <= 4)%nat.

(** What the pass over one user requests, after [history]: the user's
    information first, then at most four likes, and nothing more when the
    lookup fails or the user is private or has four posts or fewer. *)
Definition user_segment (env : Env) (cid : nat) (history : list Call)
    (user : string) (segment : list Call) : Prop :=
  exists rest,
    segment = UserInfoByUsername cid user :: rest /\
    (likes rest <= 4)%nat /\
    (forall info,
       reply env history (UserInfoByUsername cid user) = Returns info ->
       is_private info = true \/ (media_count info <= 4)%Z ->
       rest = []) /\
    (forall e,
       reply env history (UserInfoByUsername cid user) = Throws e -> rest = []).

(** Every user of the list has its segment, in order. *)
Fixpoint engaged (env : Env) (cid : nat) (history : list Call)
    (usernames : list string) (segments : list (list Call)) : Prop :=
  match usernames, segments with
  | [], [] => True
  | user :: usernames', segment :: segments' =>
      user_segment env cid history user segment /\
      engaged env cid (history ++ segment) usernames' segments'
  | _, _ => False
  end.

(** [m] changes no file outside [touch] and makes only [allowed] calls. *)
Definition confined {A} (touch : string -> Prop) (allowed : Call -> Prop)
    (m : M A) : Prop :=
  forall w,
    (forall p, ~ touch p -> fs (snd (m w)) !! p = fs w !! p) /\
    exists made, calls (snd (m w)) = calls w ++ made /\ Forall allowed made.

(** The requests of each part of the script. *)
Definition schedule_call (c : Call) : Prop :=
  match c with
  | PdReadCsv _ | DatetimeNowUtc => True
  | _ => False
  end.

Definition drive_call (service : nat) (c : Call) : Prop :=
  match c with
  | FilesList s _ | NextChunk s _ => s = service
  | _ => False
  end.

Definition sampler_call (cid : nat) (c : Call) : Prop :=
  match c with
  | RandBelow _ => True
  | UserIdFromUsername i _ | MediaLikers i _ => i = cid
  | UserMedias i _ amount => i = cid /\ amount = 10%nat
  | _ => False
  end.

Definition actor_call (cid : nat) (c : Call) : Prop :=
  match c with
  | UserInfoByUsername i _ | MediaLike i _ => i = cid
  | UserMedias i _ amount => i = cid /\ amount = 4%nat
  | _ => False
  end.

(** The request and the printed line of one pass of the loop of lines
    172-174. *)
Definition like_call (cid : nat) (media : Media) : Call := MediaLike cid (pk media).

Definition liked_line (media : Media) : string := "Liked post: " +:+ pk media.

(** The environment answers the successive like requests for [medias] that
    start after [history], none with an exception. *)
Fixpoint likes_accepted (env : Env) (history : list Call) (cid : nat)
    (medias : list Media) : Prop :=
  match medias with
  | [] => True
  | media :: medias' =>
      (exists liked, reply env history (like_call cid media) = Returns liked) /\
      likes_accepted env (history ++ [like_call cid media]) cid medias'
  end.

(** * Properties *)

(** ** Running the monad *)

Lemma bind_ok {A B} (m : M A) (k : A -> M B) w a w' :
  m w = (Ok a, w') -> bind m k w = k a w'.
Proof. intros H. unfold bind. now rewrite H. Qed.

Lemma bind_raise {A B} (m : M A) (k : A -> M B) w e w' :
  m w = (Raise e, w') -> bind m k w = (Raise e, w').
Proof. intros H. unfold bind. now rewrite H. Qed.

Lemma bind_diverge {A B} (m : M A) (k : A -> M B) w w' :
  m w = (Diverge, w') -> bind m k w = (Diverge, w').
Proof. intros H. unfold bind. now rewrite H. Qed.

Lemma call_returns env c w (a : resp c) :
  reply env (calls w) c = Returns a ->
  call env c w = (Ok a, mkWorld (fs w) (stdout w) (calls w ++ [c])).
Proof. intros H. unfold call. now rewrite H. Qed.

Lemma call_throws env c w e :
  reply env (calls w) c = Throws e ->
  call env c w = (Raise e, mkWorld (fs w) (stdout w) (calls w ++ [c])).
Proof. intros H. unfold call. now rewrite H. Qed.

(** ** The schedule selector *)

(** Line 110 when every date cell is read. *)
Lemma to_datetime_column_parsed (env : Env) (raw : list (Row string))
    (dates : list (option Z)) :
  Forall2 (fun r t => to_datetime_utc env (Date_Time r) = Returns t) raw dates ->
  to_datetime_column env raw = Returns (with_dates raw dates).
Proof.
  induction 1 as [|r t raw dates Hr _ IH]; simpl; [reflexivity|].
  now rewrite Hr, IH.
Qed.

Lemma with_dates_lookup (raw : list (Row string)) (dates : list (option Z))
    (i : nat) (d : Row (option Z)) :
  with_dates raw dates !! i = Some d ->
  exists r, raw !! i = Some r /\ dates !! i = Some (Date_Time d) /\
            Index d = Index r /\ File_Path d = File_Path r /\ Caption d = Caption r.
Proof.
  unfold with_dates. intros H.
  apply lookup_zip_with_Some in H as (r & t & -> & Hr & Ht).
  exists r. now repeat split.
Qed.

Lemma with_dates_labels (raw : list (Row string)) (dates : list (option Z)) :
  length raw = length dates ->
  forall i, labels_from i (with_dates raw dates) = labels_from i raw.
Proof.
  revert dates. induction raw as [|r raw IH]; intros [|t dates] Hlen i;
    simpl in *; try discriminate; [reflexivity|].
  f_equal. apply IH. lia.
Qed.

Lemma with_dates_deltas (raw : list (Row string)) (dates : list (option Z)) (now : Z) :
  length raw = length dates ->
  (fun r => time_delta now (Date_Time r)) <$> with_dates raw dates
    = time_delta now <$> dates.
Proof.
  revert dates. induction raw as [|r raw IH]; intros [|t dates] Hlen;
    simpl in *; try discriminate; [reflexivity|].
  f_equal. apply IH. lia.
Qed.

(** Line 116 when every dated row is within the range of a time delta. *)
Lemma time_delta_column_within (now : Z) (df : list (Row (option Z))) :
  (forall k r t, df !! k = Some r -> Date_Time r = Some t ->
     (Z.abs (t - now) <= INT64_MAX)%Z) ->
  time_delta_column now df = Returns ((fun r => time_delta now (Date_Time r)) <$> df).
Proof.
  induction df as [|r df IH]; intros Hfit; simpl; [reflexivity|].
  rewrite IH by (intros k r' t; apply (Hfit (S k))).
  destruct (Date_Time r) as [t|] eqn:Ht; simpl; [|reflexivity].
  destruct (Z.leb_spec (Z.abs (t - now)) INT64_MAX) as [_|Hbig]; [reflexivity|].
  specialize (Hfit 0%nat r t eq_refl Ht). lia.
Qed.

(** Line 116 raises nothing but [OverflowError]. *)
Lemma time_delta_column_throws (now : Z) (df : list (Row (option Z))) (e : PyExn) :
  time_delta_column now df = Throws e ->
  e = OverflowError "Overflow in int64 addition".
Proof.
  revert e. induction df as [|r df IH]; intros e; simpl; [discriminate|].
  destruct (time_delta_column now df) as [deltas|e'].
  - destruct (Date_Time r) as [t|]; [|discriminate].
    destruct (Z.abs (t - now) <=? INT64_MAX)%Z; [discriminate | congruence].
  - intros [= <-]. now apply IH.
Qed.

(** Line 116 when a dated row is out of that range. *)
Lemma time_delta_column_overflow (now : Z) (df : list (Row (option Z))) (k : nat)
    (r : Row (option Z)) (t : Z) :
  df !! k = Some r -> Date_Time r = Some t -> (INT64_MAX < Z.abs (t - now))%Z ->
  time_delta_column now df = Throws (OverflowError "Overflow in int64 addition").
Proof.
  revert k. induction df as [|r0 df IH]; intros k Hk Ht Hbig; [discriminate|].
  simpl. destruct k as [|k]; simpl in Hk.
  - injection Hk as ->. rewrite Ht.
    destruct (time_delta_column now df) as [deltas|e] eqn:Hrest.
    + destruct (Z.leb_spec (Z.abs (t - now)) INT64_MAX); [lia | reflexivity].
    + now rewrite (time_delta_column_throws now df e Hrest).
  - now rewrite (IH k Hk Ht Hbig).
Qed.

(** The scan keeps the first least entry of what it has seen. *)
Lemma scanned_seen (pre : list (option Z)) (x : Z) (best : option (nat * Z)) :
  scanned pre best ->
  scanned (pre ++ [Some x])
    (match best with
     | Some (k, least) => if (x <? least)%Z then Some (length pre, x) else best
     | None => Some (length pre, x)
     end).
Proof.
  intros H. destruct best as [[k m]|]; simpl in *.
  - destruct H as (Hk & Hle & Hlt). destruct (Z.ltb_spec x m) as [Hx|Hx]; repeat split.
    + rewrite lookup_app_r, Nat.sub_diag by lia. reflexivity.
    + intros j y Hj. apply lookup_app_Some in Hj as [Hj|[_ Hj]].
      * specialize (Hle _ _ Hj). lia.
      * apply list_lookup_singleton_Some in Hj as [_ [= ->]]. lia.
    + intros j y Hj Hlen. apply lookup_app_Some in Hj as [Hj|[Hge _]]; [|lia].
      specialize (Hle _ _ Hj). lia.
    + rewrite lookup_app_l; [exact Hk|]. now apply lookup_lt_Some in Hk.
    + intros j y Hj. apply lookup_app_Some in Hj as [Hj|[_ Hj]].
      * exact (Hle _ _ Hj).
      * apply list_lookup_singleton_Some in Hj as [_ [= ->]]. lia.
    + intros j y Hj Hlen. apply lookup_app_Some in Hj as [Hj|[Hge _]].
      * exact (Hlt _ _ Hj Hlen).
      * apply lookup_lt_Some in Hk. lia.
  - repeat split.
    + rewrite lookup_app_r, Nat.sub_diag by lia. reflexivity.
    + intros j y Hj. apply lookup_app_Some in Hj as [Hj|[_ Hj]].
      * now destruct (H j y).
      * apply list_lookup_singleton_Some in Hj as [_ [= ->]]. lia.
    + intros j y Hj Hlen. apply lookup_app_Some in Hj as [Hj|[Hge _]]; [|lia].
      now destruct (H j y).
Qed.

Lemma scanned_skipped (pre : list (option Z)) (best : option (nat * Z)) :
  scanned pre best -> scanned (pre ++ [None]) best.
Proof.
  intros H. destruct best as [[k m]|]; simpl in *.
  - destruct H as (Hk & Hle & Hlt). repeat split.
    + rewrite lookup_app_l; [exact Hk|]. now apply lookup_lt_Some in Hk.
    + intros j y Hj. apply lookup_app_Some in Hj as [Hj|[_ Hj]].
      * exact (Hle _ _ Hj).
      * apply list_lookup_singleton_Some in Hj as [_ [=]].
    + intros j y Hj Hlen. apply lookup_app_Some in Hj as [Hj|[Hge _]].
      * exact (Hlt _ _ Hj Hlen).
      * apply lookup_lt_Some in Hk. lia.
  - intros j y Hj. apply lookup_app_Some in Hj as [Hj|[_ Hj]].
    + now destruct (H j y).
    + apply list_lookup_singleton_Some in Hj as [_ [=]].
Qed.

Lemma idxmin_scan_scanned (column : list (option Z)) :
  forall (pre : list (option Z)) (best : option (nat * Z)),
    scanned pre best ->
    match idxmin_scan best (length pre) column with
    | Some k => exists m, first_least (pre ++ column) k m
    | None => forall j x, (pre ++ column) !! j <> Some (Some x)
    end.
Proof.
  induction column as [|[x|] column IH]; intros pre best H.
  - simpl. rewrite app_nil_r. destruct best as [[k m]|]; simpl; [now exists m | exact H].
  - replace (pre ++ Some x :: column) with ((pre ++ [Some x]) ++ column)
      by now rewrite <- app_assoc.
    pose proof (IH _ _ (scanned_seen pre x best H)) as Hrest.
    rewrite length_app, Nat.add_1_r in Hrest. simpl.
    destruct best as [[k m]|]; [destruct (x <? m)%Z|]; exact Hrest.
  - replace (pre ++ None :: column) with ((pre ++ [None]) ++ column)
      by now rewrite <- app_assoc.
    pose proof (IH _ _ (scanned_skipped pre best H)) as Hrest.
    rewrite length_app, Nat.add_1_r in Hrest. exact Hrest.
Qed.

(** Line 117, [idxmin]: with a dated row, the position of the first least
    distance; with rows that are all undated, no position. *)
Lemma idxmin_first_least (column : list (option Z)) :
  (exists k x, column !! k = Some (Some x)) ->
  exists i m, idxmin column = Returns (Some i) /\ first_least column i m.
Proof.
  intros (k & x & Hk).
  pose proof (idxmin_scan_scanned column [] None) as Hscan. simpl in Hscan.
  destruct column as [|c column]; [discriminate|].
  unfold idxmin. destruct (idxmin_scan None 0 (c :: column)) as [i|].
  - destruct Hscan as [m Hm]; [intros j y; destruct j; discriminate|].
    now exists i, m.
  - now destruct (Hscan (fun j y => ltac:(destruct j; discriminate)) k x).
Qed.

Lemma idxmin_all_NaT (column : list (option Z)) :
  column <> [] ->
  (forall j x, column !! j <> Some (Some x)) ->
  idxmin column = Returns None.
Proof.
  intros Hne Hnone.
  pose proof (idxmin_scan_scanned column [] None) as Hscan. simpl in Hscan.
  destruct column as [|c column]; [congruence|].
  unfold idxmin. destruct (idxmin_scan None 0 (c :: column)) as [i|]; [|reflexivity].
  destruct Hscan as [m (Hm & _)]; [intros j y; destruct j; discriminate|].
  now destruct (Hnone i m).
Qed.

(** The frame of line 117 holds every row under its label. *)
Lemma labelled_from_lookup (df : list (Row (option Z))) :
  forall (column : list (option Z)) (start i : nat) (r : Row (option Z)) (d : option Z),
    df !! i = Some r -> column !! i = Some d ->
    labelled_from start df column !! i
      = Some (row_label (start + i) r,
              mkSeries (Date_Time r) (File_Path r) (Caption r) d).
Proof.
  induction df as [|r0 df IH]; intros [|d0 column] start i r d Hr Hd;
    try discriminate.
  destruct i as [|i]; simpl in *.
  - injection Hr as ->. injection Hd as ->. now rewrite Nat.add_0_r.
  - rewrite (IH column (S start) i r d Hr Hd). now rewrite Nat.add_succ_r.
Qed.

Lemma labelled_from_labels (df : list (Row (option Z))) :
  forall (column : list (option Z)) (start : nat),
    length column = length df ->
    fst <$> labelled_from start df column = labels_from start df.
Proof.
  induction df as [|r0 df IH]; intros [|d0 column] start Hlen;
    simpl in *; try discriminate; [reflexivity|].
  f_equal. apply IH. lia.
Qed.

(** [loc] on a label that one row carries. *)
Lemma loc_unique_label (frame : list (Label * Series)) :
  forall (i : nat) (entry : Label * Series),
    NoDup (fst <$> frame) ->
    frame !! i = Some entry ->
    loc frame (Some (fst entry)) = Returns (OneRow (snd entry)).
Proof.
  intros i entry Hdup Hi. unfold loc.
  assert (Hone : filter (fun e : Label * Series => fst e = fst entry) frame = [entry]);
    [|now rewrite Hone].
  revert i Hdup Hi. induction frame as [|e frame IH]; intros i Hdup Hi; [discriminate|].
  rewrite fmap_cons in Hdup. apply NoDup_cons in Hdup as [Hfresh Hdup].
  destruct i as [|i]; simpl in Hi.
  - injection Hi as ->. rewrite filter_cons_True by reflexivity. f_equal.
    destruct (filter (fun e => fst e = fst entry) frame) as [|e' rest] eqn:Hrest;
      [reflexivity|].
    assert (He' : e' ∈ filter (fun e : Label * Series => fst e = fst entry) frame)
      by (rewrite Hrest; left).
    apply list_elem_of_filter in He' as [Hsame He'].
    destruct Hfresh. rewrite <- Hsame. now apply list_elem_of_fmap_2.
  - rewrite filter_cons_False; [now apply (IH i)|].
    intros Hsame. destruct Hfresh. rewrite Hsame.
    apply list_elem_of_fmap_2. now apply list_elem_of_lookup_2 in Hi.
Qed.

(** The default index numbers the rows, so that no two rows share a label. *)
Lemma labels_from_positions {T} (df : list (Row T)) :
  Forall (fun r => Index r = None) df ->
  forall start, labels_from start df = Position <$> seq start (length df).
Proof.
  induction 1 as [|r df Hr _ IH]; intros start; simpl; [reflexivity|].
  unfold row_label. now rewrite Hr, IH.
Qed.

Lemma default_index_NoDup {T} (df : list (Row T)) :
  Forall (fun r => Index r = None) df -> NoDup (index_labels df).
Proof.
  intros H. unfold index_labels. rewrite (labels_from_positions df H).
  apply NoDup_fmap_2; [intros i j [= ->]; reflexivity | apply NoDup_seq].
Qed.

(** Lines 115-119 on the parsed frame: with a dated row, distances that a
    time delta can hold and labels that are not repeated, the row at the
    first least distance is returned, with that distance in the
    ['Time Delta'] field. *)
Lemma closest_media_row_first_least
    (raw : list (Row string)) (dates : list (option Z)) (now : Z) :
  length raw = length dates ->
  (exists k t, dates !! k = Some (Some t)) ->
  (forall k t, dates !! k = Some (Some t) -> (Z.abs (t - now) <= INT64_MAX)%Z) ->
  NoDup (index_labels raw) ->
  exists i r t,
    closest_media_row (with_dates raw dates) now
      = Returns (OneRow (mkSeries (Some t) (File_Path r) (Caption r)
                           (Some (Z.abs (t - now))))) /\
    raw !! i = Some r /\
    dates !! i = Some (Some t) /\
    first_least (time_delta now <$> dates) i (Z.abs (t - now)).
Proof.
  intros Hlen (k & t0 & Hk) Hfit Hdup. unfold closest_media_row.
  rewrite time_delta_column_within, (with_dates_deltas raw dates now Hlen).
  2: { intros j d t Hj Ht. apply with_dates_lookup in Hj as (r & _ & Hd & _).
       rewrite Ht in Hd. exact (Hfit j t Hd). }
  destruct (idxmin_first_least (time_delta now <$> dates)) as (i & m & -> & Hfirst).
  { exists k, (Z.abs (t0 - now)). now rewrite list_lookup_fmap, Hk. }
  pose proof Hfirst as (Hi & _).
  rewrite list_lookup_fmap in Hi.
  destruct (dates !! i) as [[t|]|] eqn:Hd; simpl in Hi; try discriminate.
  injection Hi as <-.
  destruct (raw !! i) as [r|] eqn:Hr.
  2: { apply lookup_ge_None in Hr. apply lookup_lt_Some in Hd. lia. }
  exists i, r, t. split; [|split; [exact Hr|split; [exact Hd|exact Hfirst]]].
  assert (Hrow : with_dates raw dates !! i
                 = Some (indexed_row (Index r) (Some t) (File_Path r) (Caption r))).
  { unfold with_dates. rewrite lookup_zip_with, Hr, Hd. reflexivity. }
  pose proof (labelled_from_lookup _ (time_delta now <$> dates) 0 i _
                (Some (Z.abs (t - now))) Hrow) as Hentry.
  rewrite list_lookup_fmap, Hd in Hentry. specialize (Hentry eq_refl).
  unfold labelled_frame. simpl. rewrite Hentry. simpl.
  apply (loc_unique_label _ i
           (row_label i r, mkSeries (Some t) (File_Path r) (Caption r)
                             (Some (Z.abs (t - now)))));
    [|exact Hentry].
  rewrite labelled_from_labels, with_dates_labels; [exact Hdup | exact Hlen |].
  unfold with_dates. rewrite length_fmap, length_zip_with. lia.
Qed.

(** Lines 107-119 when the schedule is read and every date cell is read. *)
Lemma get_closest_media_row_selects
    (env : Env) (path content : string) (w : World)
    (raw : list (Row string)) (dates : list (option Z)) (now : Z) :
  fs w !! path = Some content ->
  reply env (calls w) (PdReadCsv content) = Returns raw ->
  reply env (calls w ++ [PdReadCsv content]) DatetimeNowUtc = Returns now ->
  Forall2 (fun r t => to_datetime_utc env (Date_Time r) = Returns t) raw dates ->
  get_closest_media_row env path w
    = (match closest_media_row (with_dates raw dates) now with
       | Returns row => Ok row
       | Throws e => Raise e
       end,
       mkWorld (fs w) (stdout w) (calls w ++ [PdReadCsv content; DatetimeNowUtc])).
Proof.
  intros Hfile Hcsv Hnow Hdates. unfold get_closest_media_row, read_file.
  erewrite bind_ok by (rewrite Hfile; reflexivity).
  erewrite bind_ok by (apply call_returns, Hcsv).
  erewrite bind_ok
    by (unfold lift; rewrite (to_datetime_column_parsed env raw dates Hdates);
        reflexivity).
  erewrite bind_ok by (apply call_returns; simpl; exact Hnow).
  unfold lift. simpl. rewrite <- app_assoc.
  now destruct (closest_media_row (with_dates raw dates) now).
Qed.




(** On the sample schedule the two last rows tie and the earlier one wins;
    a row without a date is passed over. *)
Example closest_of_three_rows :
  closest_media_row (with_dates three_rows three_rows_dates) 1000
    = Returns (OneRow (mkSeries (Some 0%Z) "x.mp4" "hello" (Some 1000%Z))).
Proof. reflexivity. Qed.

Example closest_with_gap :
  closest_media_row (with_dates rows_with_gap rows_with_gap_dates) 1000
    = Returns (OneRow (mkSeries (Some 0%Z) "x.mp4" "hello" (Some 1000%Z))).
Proof. reflexivity. Qed.

(** Lines 107-117 on a schedule file without data rows. *)
Lemma get_closest_media_row_empty_raises
    (env : Env) (path content : string) (w : World) (now : Z) :
  fs w !! path = Some content ->
  reply env (calls w) (PdReadCsv content) = Returns [] ->
  reply env (calls w ++ [PdReadCsv content]) DatetimeNowUtc = Returns now ->
  get_closest_media_row env path w
    = (Raise (ValueError "attempt to get argmin of an empty sequence"),
       mkWorld (fs w) (stdout w) (calls w ++ [PdReadCsv content; DatetimeNowUtc])).
Proof.
  intros Hfile Hcsv Hnow. unfold get_closest_media_row, read_file.
  erewrite bind_ok by (rewrite Hfile; reflexivity).
  erewrite bind_ok by (apply call_returns, Hcsv).
  erewrite bind_ok by reflexivity.
  erewrite bind_ok by (apply call_returns; simpl; exact Hnow).
  simpl. now rewrite <- app_assoc.
Qed.

(** C1. On a schedule without data rows the ['Time Delta'] column is empty
    and [idxmin] raises [ValueError]: [get_closest_media_row] ends with that
    exception and yields no row that the caller could test with
    [media_row.empty]; a row that it does yield is never empty.  The run
    that reads a header-only schedule file ends with the exception, after
    the login and before any Drive request. *)
Theorem empty_schedule_raises :
  (forall now,
     closest_media_row [] now
       = Throws (ValueError "attempt to get argmin of an empty sequence")) /\
  (forall env path content w now,
     fs w !! path = Some content ->
     reply env (calls w) (PdReadCsv content) = Returns [] ->
     reply env (calls w ++ [PdReadCsv content]) DatetimeNowUtc = Returns now ->
     get_closest_media_row env path w
       = (Raise (ValueError "attempt to get argmin of an empty sequence"),
          mkWorld (fs w) (stdout w)
            (calls w ++ [PdReadCsv content; DatetimeNowUtc]))) /\
  (forall media_row, Series_empty media_row = false) /\
  (forall fuel,
     main quiet_env fuel (start_world schedule_file)
       = (Raise (ValueError "attempt to get argmin of an empty sequence"),
          mkWorld (<[SESSION_FILE_PATH := "{}"]> schedule_file)
            ["Logged in and session saved"]
            [Getenv "INSTAGRAM_USERNAME"; Getenv "INSTAGRAM_PASSWORD";
             Getenv "GOOGLE_CREDENTIAL"; NewClient;
             Login 7 (Some "secret") (Some "secret"); GetSettings 7;
             CredentialsFromInfo (Some "secret"); DriveBuild 1;
             PdReadCsv "Date & Time,File Path,Caption"; DatetimeNowUtc])).
Proof.
  split; [reflexivity|]. split; [apply get_closest_media_row_empty_raises|].
  split; [reflexivity|]. intros fuel. vm_compute. reflexivity.
Qed.

Lemma empty_schedule_raises_witness :
  get_closest_media_row quiet_env "media_schedule.csv" (start_world schedule_file)
    = (Raise (ValueError "attempt to get argmin of an empty sequence"),
       mkWorld schedule_file []
         ([] ++ [PdReadCsv "Date & Time,File Path,Caption"; DatetimeNowUtc])).
Proof.
  apply (proj1 (proj2 empty_schedule_raises) quiet_env "media_schedule.csv"
           "Date & Time,File Path,Caption" (start_world schedule_file) 1000);
    reflexivity.
Defined.

(** ** The session store *)

(** Unfolds the statements of the monad, so that a run can be followed by
    [simpl] and by rewriting with the answers of the environment. *)
Ltac unfold_py :=
  unfold FileIO_wb; unfold open_truncate;
  unfold bind, try_except, call, lift, print, ret, raise, write_file,
    append_file, read_file, os_path_exists, os_remove.

Ltac py_run :=
  unfold_py;
  repeat (simpl; progress (repeat match goal with H : _ = _ |- _ => rewrite H end));
  simpl.

(** Follows a run through every answer the environment can give. *)
Ltac py_cases env :=
  unfold_py;
  repeat (simpl;
          match goal with
          | H : _ = _ |- _ => progress (rewrite H)
          | |- context [reply env ?h ?c] => destruct (reply env h c) eqn:?
          | |- context [open_for_writing env ?p] =>
              destruct (open_for_writing env p) eqn:?
          end);
  simpl.

Section SessionStore.

Variable env : Env.
Variables (client : Client) (username password : option string) (path : string).

Abbreviation cid := (client_id client).
Abbreviation logged := (set_credentials client username password).



(** Lines 25-31 when the stored session is accepted. *)
Lemma relogin_returns (w : World) (content : string) (b : bool) :
  fs w !! path = Some content ->
  reply env (calls w) (LoadSettings cid content) = Returns tt ->
  reply env (calls w ++ [LoadSettings cid content]) (Relogin cid) = Returns b ->
  login_with_session env client username password path w
    = (Ok logged,
       mkWorld (fs w) (stdout w ++ ["Session loaded successfully"])
         (calls w ++ [LoadSettings cid content; Relogin cid])).
Proof.
  intros Hfile Hload Hre. unfold login_with_session, load_settings. py_run.
  now rewrite <- app_assoc.
Qed.

(** Lines 25-35 when [relogin] raises: control reaches the fresh login. *)
Lemma relogin_failure_falls_back (w : World) (content : string) (e : PyExn) :
  fs w !! path = Some content ->
  reply env (calls w) (LoadSettings cid content) = Returns tt ->
  reply env (calls w ++ [LoadSettings cid content]) (Relogin cid) = Throws e ->
  login_with_session env client username password path w
    = fresh_login env logged username password path
        (mkWorld (fs w)
           (stdout w ++ ["Relogin failed: " +:+ exn_msg e +:+ ", performing a fresh login"])
           (calls w ++ [LoadSettings cid content; Relogin cid])).
Proof.
  intros Hfile Hload Hre. unfold login_with_session, load_settings. py_run.
  now rewrite <- app_assoc.
Qed.

(** Line 27 is outside the [try]: an exception of [load_settings] leaves
    the function. *)
Lemma load_failure_propagates (w : World) (content : string) (e : PyExn) :
  fs w !! path = Some content ->
  reply env (calls w) (LoadSettings cid content) = Throws e ->
  login_with_session env client username password path w
    = (Raise e, mkWorld (fs w) (stdout w) (calls w ++ [LoadSettings cid content])).
Proof.
  intros Hfile Hload. unfold login_with_session, load_settings. now py_run.
Qed.

(** Lines 25 and 35 when there is no session file. *)
Lemma no_session_file_logs_in (w : World) :
  fs w !! path = None ->
  login_with_session env client username password path w
    = fresh_login env logged username password path w.
Proof.
  intros Hfile. unfold login_with_session. py_run. now destruct w.
Qed.

End SessionStore.




(** C10. When the session file exists and [relogin] returns,
    [login_with_session] leaves the file system as it found it.  In every
    run the files other than [path] keep their content, and if the file
    system differs afterwards then the run made the credential login. *)
Theorem login_with_session_writes_only_on_login
    (env : Env) (client : Client) (username password : option string)
    (path : string) (w : World) :
  let cid := client_id client in
  let run := login_with_session env client username password path w in
  (forall content b,
     fs w !! path = Some content ->
     reply env (calls w) (LoadSettings cid content) = Returns tt ->
     reply env (calls w ++ [LoadSettings cid content]) (Relogin cid) = Returns b ->
     fst run = Ok (set_credentials client username password) /\
     fs (snd run) = fs w /\
     fs (snd run) !! path = Some content) /\
  (forall other, other <> path -> fs (snd run) !! other = fs w !! other) /\
  (exists made,
     calls (snd run) = calls w ++ made /\
     (fs (snd run) = fs w \/ In (Login cid username password) made)).
Proof.
  intros cid run. split; [|split].
  - intros content b Hfile Hload Hre. subst run cid.
    rewrite (relogin_returns env client username password path w content b)
      by assumption.
    simpl. now repeat split.
  - intros other Hother. subst run cid.
    unfold login_with_session, load_settings, fresh_login, dump_settings.
    destruct (fs w !! path) as [content|] eqn:Hfile; py_cases env;
      rewrite ?lookup_insert_ne by congruence; reflexivity.
  - subst run cid.
    unfold login_with_session, load_settings, fresh_login, dump_settings.
    destruct (fs w !! path) as [content|] eqn:Hfile; py_cases env;
      rewrite <- ?app_assoc; simpl;
      eexists; (split; [reflexivity|]); simpl; tauto.
Qed.

Lemma login_with_session_writes_only_on_login_witness :
  let run :=
    login_with_session quiet_env new_client (Some "teacher") (Some "hunter2")
      SESSION_FILE_PATH (start_world session_file) in
  fst run = Ok (set_credentials new_client (Some "teacher") (Some "hunter2")) /\
  fs (snd run) = session_file /\
  fs (snd run) !! SESSION_FILE_PATH = Some "{stale}".
Proof.
  apply (proj1 (login_with_session_writes_only_on_login quiet_env new_client
                  (Some "teacher") (Some "hunter2") SESSION_FILE_PATH
                  (start_world session_file))
           "{stale}" true); reflexivity.
Defined.

(** ** The asset fetcher *)

Lemma append_assoc (a b c : string) : (a +:+ b) +:+ c = a +:+ (b +:+ c).
Proof.
  induction a as [|x a IH]; [reflexivity|].
  change (String x ((a +:+ b) +:+ c) = String x (a +:+ (b +:+ c))).
  now rewrite IH.
Qed.

Lemma append_empty_r (a : string) : a +:+ "" = a.
Proof.
  induction a as [|x a IH]; [reflexivity|].
  change (String x (a +:+ "") = String x a). now rewrite IH.
Qed.


Section AssetFetcher.

Variable env : Env.
Variables (service : nat) (folder_name file_name : string).

Abbreviation list_folders := (FilesList service (folder_query folder_name)).
Abbreviation list_files folder :=
  (FilesList service (file_query file_name (file_id folder))).





End AssetFetcher.





(** ** The publisher *)

Lemma main_from_publish (env : Env) (fuel : nat) (w0 : World)
    (user pass : option string) (client : Client) (media_path caption : string)
    (w : World) :
  main_reaches_publish env fuel w0 user pass client media_path caption w ->
  main env fuel w0 = main_publish env user pass client media_path caption w.
Proof.
  intros (service & media_row & w1 & Hsetup & Hdown & Hpath & ->).
  unfold main. rewrite (bind_ok _ _ _ _ _ Hsetup). simpl.
  unfold main_media. rewrite (bind_ok _ _ _ _ _ Hdown). simpl.
  destruct (String.eqb_spec media_path ""); [contradiction | reflexivity].
Qed.

Section Publisher.

Variable env : Env.
Variables (client : Client) (video_path caption : string).

Abbreviation post := (VideoUpload (client_id client) video_path caption).
Abbreviation story := (VideoUploadToStory (client_id client) video_path).

Lemma upload_both (w : World) (t1 t2 : option string) :
  reply env (calls w) post = Returns t1 ->
  reply env (calls w ++ [post]) story = Returns t2 ->
  upload_video_and_story env client video_path caption w
    = (Ok tt,
       mkWorld (with_thumbnail video_path t2 (with_thumbnail video_path t1 (fs w)))
         (stdout w ++ ["Video uploaded as a post with caption: " +:+ caption;
                       "Video uploaded as a story"])
         (calls w ++ [post; story])).
Proof.
  intros Hpost Hstory. unfold upload_video_and_story, store_thumbnail.
  destruct t1, t2; py_run; now rewrite <- !app_assoc.
Qed.

Lemma upload_post_raises (w : World) (e : PyExn) :
  reply env (calls w) post = Throws e ->
  upload_video_and_story env client video_path caption w
    = (Raise e, mkWorld (fs w) (stdout w) (calls w ++ [post])).
Proof. intros Hpost. unfold upload_video_and_story. now py_run. Qed.

Lemma upload_story_raises (w : World) (t1 : option string) (e : PyExn) :
  reply env (calls w) post = Returns t1 ->
  reply env (calls w ++ [post]) story = Throws e ->
  upload_video_and_story env client video_path caption w
    = (Raise e,
       mkWorld (with_thumbnail video_path t1 (fs w))
         (stdout w ++ ["Video uploaded as a post with caption: " +:+ caption])
         (calls w ++ [post; story])).
Proof.
  intros Hpost Hstory. unfold upload_video_and_story, store_thumbnail.
  destruct t1; py_run; now rewrite <- !app_assoc.
Qed.

End Publisher.

Lemma main_publish_upload_raises (env : Env) (user pass : option string)
    (client : Client) (media_path caption : string) (w w1 : World) (e : PyExn) :
  upload_video_and_story env client media_path caption w = (Raise e, w1) ->
  main_publish env user pass client media_path caption w = (Raise e, w1).
Proof. intros Hup. unfold main_publish. now rewrite (bind_raise _ _ _ _ _ Hup). Qed.

(** C8. [upload_video_and_story] requests the feed upload with the caption
    and then the story upload, which takes the path alone.  An exception of
    the feed upload leaves the function before the story upload is
    requested, an exception of the story upload leaves it after the feed
    upload was made, and in the main block either one ends the run: nothing
    is removed and no engagement call follows. *)
Theorem upload_video_and_story_post_then_story
    (env : Env) (client : Client) (video_path caption : string) (w : World) :
  let post := VideoUpload (client_id client) video_path caption in
  let story := VideoUploadToStory (client_id client) video_path in
  (forall t1 t2,
     reply env (calls w) post = Returns t1 ->
     reply env (calls w ++ [post]) story = Returns t2 ->
     upload_video_and_story env client video_path caption w
       = (Ok tt,
          mkWorld (with_thumbnail video_path t2 (with_thumbnail video_path t1 (fs w)))
            (stdout w ++ ["Video uploaded as a post with caption: " +:+ caption;
                          "Video uploaded as a story"])
            (calls w ++ [post; story]))) /\
  (forall e,
     reply env (calls w) post = Throws e ->
     upload_video_and_story env client video_path caption w
       = (Raise e, mkWorld (fs w) (stdout w) (calls w ++ [post]))) /\
  (forall t1 e,
     reply env (calls w) post = Returns t1 ->
     reply env (calls w ++ [post]) story = Throws e ->
     upload_video_and_story env client video_path caption w
       = (Raise e,
          mkWorld (with_thumbnail video_path t1 (fs w))
            (stdout w ++ ["Video uploaded as a post with caption: " +:+ caption])
            (calls w ++ [post; story]))) /\
  (forall fuel w0 user pass e w1,
     main_reaches_publish env fuel w0 user pass client video_path caption w ->
     upload_video_and_story env client video_path caption w = (Raise e, w1) ->
     main env fuel w0 = (Raise e, w1)).
Proof.
  intros post story. split; [|split; [|split]].
  - intros t1 t2. apply upload_both.
  - intros e. apply upload_post_raises.
  - intros t1 e. apply upload_story_raises.
  - intros fuel w0 user pass e w1 Hreach Hup.
    rewrite (main_from_publish _ _ _ _ _ _ _ _ _ Hreach).
    now apply main_publish_upload_raises.
Qed.

(** The sample runs arrive at the upload in [at_publish]. *)
Ltac sample_reaches_publish :=
  exists 2%nat, (mkSeries (Some 1000%Z) "x.mp4" "hello" (Some 0%Z));
  eexists; split; [vm_compute; reflexivity|];
  split; [vm_compute; reflexivity|]; split; [discriminate | reflexivity].

Lemma refused_env_reaches_publish :
  main_reaches_publish refused_env 5 (start_world schedule_file)
    (Some "secret") (Some "secret") secret_client "x.mp4" "hello" at_publish.
Proof. sample_reaches_publish. Qed.

Lemma upload_video_and_story_post_then_story_witness :
  let post := VideoUpload 7 "x.mp4" "hello" in
  let story := VideoUploadToStory 7 "x.mp4" in
  let w := start_world video_file in
  (upload_video_and_story thumbnail_env new_client "x.mp4" "hello" w
     = (Ok tt,
        mkWorld (with_thumbnail "x.mp4" None (with_thumbnail "x.mp4" (Some "JFIF") (fs w)))
          (stdout w ++ ["Video uploaded as a post with caption: " +:+ "hello";
                        "Video uploaded as a story"])
          (calls w ++ [post; story]))) /\
  (upload_video_and_story upload_fails_env new_client "x.mp4" "hello" w
     = (Raise (mkExn "VideoNotUpload" "feed upload failed"),
        mkWorld (fs w) (stdout w) (calls w ++ [post]))) /\
  (upload_video_and_story story_fails_env new_client "x.mp4" "hello" w
     = (Raise (mkExn "VideoNotUpload" "story upload failed"),
        mkWorld (with_thumbnail "x.mp4" None (fs w))
          (stdout w ++ ["Video uploaded as a post with caption: " +:+ "hello"])
          (calls w ++ [post; story]))) /\
  main refused_env 5 (start_world schedule_file)
    = (Raise (mkExn "VideoNotUpload" "feed upload failed"),
       mkWorld (fs at_publish) (stdout at_publish) (calls at_publish ++ [post])).
Proof.
  intros post story w. split; [|split; [|split]].
  - apply (proj1 (upload_video_and_story_post_then_story thumbnail_env new_client
                    "x.mp4" "hello" w)); reflexivity.
  - apply (proj1 (proj2 (upload_video_and_story_post_then_story upload_fails_env
                           new_client "x.mp4" "hello" w))); reflexivity.
  - apply (proj1 (proj2 (proj2 (upload_video_and_story_post_then_story story_fails_env
                                  new_client "x.mp4" "hello" w)))); reflexivity.
  - apply (proj2 (proj2 (proj2 (upload_video_and_story_post_then_story refused_env
                                  secret_client "x.mp4" "hello" at_publish)))
             5%nat (start_world schedule_file) (Some "secret") (Some "secret")).
    + exact refused_env_reaches_publish.
    + vm_compute. reflexivity.
Defined.

(** ** Files that a statement leaves in place *)

Section Keeps.

Variable env : Env.
Variable keep : string -> Prop.

Lemma keeps_ret {A} (a : A) : keeps keep (ret a).
Proof. intros w path _ H. exact H. Qed.

Lemma keeps_raise {A} (e : PyExn) : keeps keep (@raise A e).
Proof. intros w path _ H. exact H. Qed.

Lemma keeps_bind {A B} (m : M A) (k : A -> M B) :
  keeps keep m -> (forall a, keeps keep (k a)) -> keeps keep (bind m k).
Proof.
  intros Hm Hk w path Hp H. specialize (Hm w path Hp H). unfold bind.
  destruct (m w) as [[a|e|] w']; simpl in *; [now apply Hk | exact Hm | exact Hm].
Qed.

Lemma keeps_try_except {A} (m : M A) (h : PyExn -> M A) :
  keeps keep m -> (forall e, keeps keep (h e)) -> keeps keep (try_except m h).
Proof.
  intros Hm Hh w path Hp H. specialize (Hm w path Hp H). unfold try_except.
  destruct (m w) as [[a|e|] w']; simpl in *; [exact Hm | now apply Hh | exact Hm].
Qed.

Lemma keeps_call (c : Call) : keeps keep (call env c).
Proof. intros w path _ H. exact H. Qed.

Lemma keeps_lift {A} (r : Reply A) : keeps keep (lift r).
Proof. intros w path _ H. exact H. Qed.

Lemma keeps_print (line : string) : keeps keep (print line).
Proof. intros w path _ H. exact H. Qed.

Lemma keeps_os_path_exists (p : string) : keeps keep (os_path_exists p).
Proof. intros w path _ H. exact H. Qed.

Lemma keeps_read_file (p : string) : keeps keep (read_file p).
Proof. intros w path _ H. unfold read_file. now destruct (fs w !! p). Qed.

Lemma keeps_write_file (p content : string) : keeps keep (write_file p content).
Proof.
  intros w path _ H. simpl.
  destruct (decide (p = path)) as [->|Hne];
    [rewrite lookup_insert_eq; eauto | now rewrite lookup_insert_ne].
Qed.

Lemma keeps_append_file (p data : string) : keeps keep (append_file p data).
Proof.
  intros w path _ H. simpl.
  destruct (decide (p = path)) as [->|Hne];
    [rewrite lookup_insert_eq; eauto | now rewrite lookup_insert_ne].
Qed.

Lemma keeps_os_remove (p : string) : ~ keep p -> keeps keep (os_remove p).
Proof.
  intros Hp w path Hkeep H. unfold os_remove.
  destruct (fs w !! p) eqn:Hfile; simpl; [|exact H].
  rewrite lookup_delete_ne; [exact H | congruence].
Qed.

Lemma keeps_for_each {A} (l : list A) (body : A -> M unit) :
  (forall x, keeps keep (body x)) -> keeps keep (for_each l body).
Proof.
  intros Hbody. induction l as [|x l IH]; simpl;
    [apply keeps_ret | apply keeps_bind; auto].
Qed.

Lemma keeps_random_choice {A} (seq : list A) : keeps keep (random_choice env seq).
Proof.
  destruct seq as [|x seq]; simpl; [apply keeps_raise|].
  apply keeps_bind; [apply keeps_call|]. intros i.
  destruct (_ !! _); [apply keeps_ret | apply keeps_raise].
Qed.

End Keeps.

Create HintDb keeps.
#[export] Hint Resolve keeps_ret keeps_raise keeps_call keeps_lift keeps_print
  keeps_os_path_exists keeps_read_file keeps_write_file keeps_append_file
  keeps_random_choice : keeps.

(** Breaks a statement of the script into its steps. *)
Ltac keeps_steps :=
  repeat first
    [ apply keeps_bind; [|intros ?]
    | apply keeps_try_except; [|intros ?]
    | apply keeps_for_each; intros ?
    | solve [auto with keeps]
    | match goal with
      | |- keeps ?keep (call ?e ?c) => exact (keeps_call e keep c)
      end
    | match goal with
      | |- keeps _ (match ?x with _ => _ end) => destruct x
      | |- keeps _ (if ?b then _ else _) => destruct b
      end ].

Section ScriptKeeps.

Variable env : Env.
Variable keep : string -> Prop.

Lemma keeps_login_with_session client user pass path :
  keeps keep (login_with_session env client user pass path).
Proof.
  unfold login_with_session, load_settings, fresh_login, dump_settings.
  keeps_steps.
Qed.

Lemma keeps_download_chunks fuel service fileId path :
  keeps keep (download_chunks env fuel service fileId path).
Proof.
  induction fuel as [|fuel IH]; simpl; [intros w p _ H; exact H|].
  keeps_steps.
Qed.

Lemma keeps_FileIO_wb file_path : keeps keep (FileIO_wb env file_path).
Proof. destruct file_path; unfold FileIO_wb, open_truncate; keeps_steps. Qed.

Lemma keeps_download_file_from_drive fuel service folder_name file_name :
  keeps keep (download_file_from_drive env fuel service folder_name file_name).
Proof.
  unfold download_file_from_drive. keeps_steps;
    [apply keeps_FileIO_wb | apply keeps_download_chunks].
Qed.

Lemma keeps_upload_video_and_story client video_path caption :
  keeps keep (upload_video_and_story env client video_path caption).
Proof. unfold upload_video_and_story, store_thumbnail. keeps_steps. Qed.

Lemma keeps_get_closest_media_row path :
  keeps keep (get_closest_media_row env path).
Proof. unfold get_closest_media_row. keeps_steps. Qed.

Lemma keeps_get_random_likers_from_targets targets cl :
  keeps keep (get_random_likers_from_targets env targets cl).
Proof. unfold get_random_likers_from_targets, get_random_likers_try. keeps_steps. Qed.

Lemma keeps_process_usernames usernames cl :
  keeps keep (process_usernames env usernames cl).
Proof. unfold process_usernames, process_user. keeps_steps. Qed.

Lemma keeps_main_engage user pass usernames :
  keeps keep (main_engage env user pass usernames).
Proof.
  unfold main_engage. keeps_steps.
Qed.

Lemma keeps_main_setup : keeps keep (main_setup env).
Proof.
  unfold main_setup. keeps_steps.
Qed.

End ScriptKeeps.

(** The clean-up removes the two paths it names and nothing else. *)
Lemma keeps_main_cleanup (media_path : string) :
  keeps (fun p => p <> media_path /\ p <> media_path +:+ ".jpg")
    (main_cleanup media_path).
Proof.
  unfold main_cleanup. keeps_steps; apply keeps_os_remove; tauto.
Qed.

Lemma keeps_main_publish (env : Env) user pass client (media_path caption : string) :
  keeps (fun p => p <> media_path /\ p <> media_path +:+ ".jpg")
    (main_publish env user pass client media_path caption).
Proof.
  unfold main_publish.
  apply keeps_bind; [apply keeps_upload_video_and_story | intros _].
  apply keeps_bind; [apply keeps_main_cleanup | intros _].
  apply keeps_bind; [apply keeps_get_random_likers_from_targets | intros usernames].
  apply keeps_main_engage.
Qed.

(** A path that [download_file_from_drive] returns names a local file. *)
Lemma download_returns_local_file (env : Env) (fuel service : nat)
    (folder_name file_name path : string) (w w' : World) :
  download_file_from_drive env fuel service folder_name file_name w
    = (Ok (Some path), w') ->
  path = file_name /\ is_Some (fs w' !! path).
Proof.
  unfold download_file_from_drive. unfold_py. simpl.
  destruct (reply env (calls w) _) as [[|folder more]|]; simpl; try discriminate.
  destruct (reply env _ _) as [[|file more']|]; simpl; try discriminate.
  destruct (open_for_writing env file_name); simpl; try discriminate.
  match goal with
  | |- context [download_chunks env fuel ?s ?f ?p ?w2] =>
      pose proof (keeps_download_chunks env (fun _ => True) fuel s f p w2 p I) as Hkeep;
      destruct (download_chunks env fuel s f p w2) as [[[]|e|] w3]
  end; simpl in *; try discriminate.
  intros [= <- <-]. simpl. split; [reflexivity|].
  apply Hkeep. rewrite lookup_insert_eq. eauto.
Qed.

(** Line 78 raises for a file name that is not a [str]: no path comes back. *)
Lemma download_not_str_returns_no_path (env : Env) (fuel service : nat)
    (folder_name text path : string) (w w' : World) :
  download_file_from_drive env fuel service folder_name (NotStr text) w
    <> (Ok (Some path), w').
Proof.
  unfold download_file_from_drive. unfold_py. simpl.
  destruct (reply env (calls w) _) as [[|folder more]|]; simpl; try discriminate.
  destruct (reply env _ _) as [[|file more']|]; simpl; discriminate.
Qed.

(** The body of the guard on a frame removes no file. *)
Lemma keeps_main_media_frame (env : Env) (keep : string -> Prop) fuel user pass client
    service label rows :
  keeps keep (main_media_frame env fuel user pass client service label rows).
Proof.
  intros w other Hkeep Hother. unfold main_media_frame, bind.
  match goal with
  | |- context [download_file_from_drive env fuel service ?folder (NotStr ?text) w] =>
      pose proof (keeps_download_file_from_drive env keep fuel service folder
                    (NotStr text) w other Hkeep Hother) as Hdown;
      pose proof (download_not_str_returns_no_path env fuel service folder text) as Hno;
      destruct (download_file_from_drive env fuel service folder (NotStr text) w)
        as [[[path|]|e|] w2] eqn:Hd
  end; simpl in *; try exact Hdown.
  now destruct (Hno path w w2).
Qed.

(** ** The clean-up *)

Lemma main_cleanup_deletes (media_path : string) (w : World) :
  is_Some (fs w !! media_path) ->
  main_cleanup media_path w
    = (Ok tt,
       mkWorld (delete (media_path +:+ ".jpg") (delete media_path (fs w)))
         (stdout w) (calls w)).
Proof.
  intros [bytes Hfile]. unfold main_cleanup. unfold_py. simpl. rewrite Hfile. simpl.
  destruct (delete media_path (fs w) !! (media_path +:+ ".jpg")) as [image|] eqn:Hjpg;
    simpl; rewrite ?Hjpg; simpl.
  - reflexivity.
  - now rewrite (delete_id _ _ Hjpg).
Qed.

(** C9. When the upload succeeded, the main block removes the downloaded
    file, and the file of the same name with ['.jpg'] appended if there is
    one, without an error in either case; every other file of that moment is
    still there, with its content.  Over the whole run no file is removed
    but the downloaded one and its ['.jpg'] companion. *)
Theorem cleanup_removes_asset_and_sidecar
    (env : Env) (fuel : nat) (w0 : World) :
  (forall user pass client media_path caption wp w1,
     main_reaches_publish env fuel w0 user pass client media_path caption wp ->
     upload_video_and_story env client media_path caption wp = (Ok tt, w1) ->
     let jpg := media_path +:+ ".jpg" in
     let w2 := mkWorld (delete jpg (delete media_path (fs w1))) (stdout w1) (calls w1) in
     main_cleanup media_path w1 = (Ok tt, w2) /\
     fs w2 !! media_path = None /\
     fs w2 !! jpg = None /\
     (forall other, other <> media_path -> other <> jpg ->
        fs w2 !! other = fs w1 !! other) /\
     main env fuel w0
       = bind (get_random_likers_from_targets env target_usernames client)
           (main_engage env user pass) w2) /\
  (forall other,
     is_Some (fs w0 !! other) ->
     (forall user pass client media_path caption wp,
        main_reaches_publish env fuel w0 user pass client media_path caption wp ->
        other <> media_path /\ other <> media_path +:+ ".jpg") ->
     is_Some (fs (snd (main env fuel w0)) !! other)).
Proof.
  split.
  - intros user pass client media_path caption wp w1 Hreach Hup jpg w2.
    assert (Hfile : is_Some (fs w1 !! media_path)).
    { destruct Hreach as (service & row & ws & _ & Hdown & _ & _).
      apply download_returns_local_file in Hdown as [_ Hfile].
      pose proof (keeps_upload_video_and_story env (fun _ => True) client media_path
                    caption wp media_path I Hfile) as Hkeep.
      now rewrite Hup in Hkeep. }
    assert (Hclean := main_cleanup_deletes media_path w1 Hfile).
    split; [exact Hclean|]. subst w2 jpg. simpl.
    split; [|split; [|split]].
    + destruct (decide (media_path +:+ ".jpg" = media_path)) as [->|Hne].
      * apply lookup_delete_eq.
      * rewrite lookup_delete_ne by exact Hne. apply lookup_delete_eq.
    + apply lookup_delete_eq.
    + intros other H1 H2. now rewrite !lookup_delete_ne by congruence.
    + rewrite (main_from_publish _ _ _ _ _ _ _ _ _ Hreach). unfold main_publish.
      rewrite (bind_ok _ _ _ _ _ Hup). now rewrite (bind_ok _ _ _ _ _ Hclean).
  - intros other Hother Hnot.
    pose proof (keeps_main_setup env (fun _ => True) w0 other I Hother) as Hsetup.
    unfold main, bind.
    destruct (main_setup env w0) as [[[[[[user pass] client] service] row]|e|] w1]
      eqn:Hs; simpl in *; try exact Hsetup.
    destruct row as [row|label rows]; simpl;
      [|destruct (DataFrame_empty rows); simpl;
        [exact Hsetup | now apply (keeps_main_media_frame env (fun _ => True))]].
    pose proof (keeps_download_file_from_drive env (fun _ => True) fuel service
                  "english_skills_101" (row_File_Path row) w1 other I Hsetup) as Hdown.
    unfold main_media, bind.
    destruct (download_file_from_drive env fuel service "english_skills_101"
                (row_File_Path row) w1) as [[[path|]|e|] w2] eqn:Hd;
      simpl in *; try exact Hdown.
    destruct (String.eqb_spec path "") as [->|Hpath]; simpl; [exact Hdown|].
    apply keeps_main_publish; [|exact Hdown].
    apply (Hnot user pass client path (row_Caption row) w2).
    exists service, row, w1. now repeat split.
Qed.

Lemma happy_env_reaches_publish :
  main_reaches_publish happy_env 5 (start_world schedule_file)
    (Some "secret") (Some "secret") secret_client "x.mp4" "hello" at_publish.
Proof. sample_reaches_publish. Qed.

Lemma cleanup_removes_asset_and_sidecar_witness :
  let w2 :=
    mkWorld (delete "x.mp4.jpg" (delete "x.mp4" (fs after_upload)))
      (stdout after_upload) (calls after_upload) in
  (main_cleanup "x.mp4" after_upload = (Ok tt, w2) /\
   fs w2 !! "x.mp4" = None /\
   fs w2 !! "x.mp4.jpg" = None /\
   (forall other, other <> "x.mp4" -> other <> "x.mp4.jpg" ->
      fs w2 !! other = fs after_upload !! other) /\
   main happy_env 5 (start_world schedule_file)
     = bind (get_random_likers_from_targets happy_env target_usernames secret_client)
         (main_engage happy_env (Some "secret") (Some "secret")) w2) /\
  is_Some (fs (snd (main happy_env 5 (start_world schedule_file)))
             !! "media_schedule.csv").
Proof.
  intros w2. split.
  - apply (proj1 (cleanup_removes_asset_and_sidecar happy_env 5
                    (start_world schedule_file))
             (Some "secret") (Some "secret") secret_client "x.mp4" "hello"
             at_publish after_upload).
    + exact happy_env_reaches_publish.
    + vm_compute. reflexivity.
  - apply (proj2 (cleanup_removes_asset_and_sidecar happy_env 5
                    (start_world schedule_file)) "media_schedule.csv").
    + vm_compute. eauto.
    + intros user pass client media_path caption wp
        (service & row & w1 & Hsetup & Hdown & _ & _).
      vm_compute in Hsetup. injection Hsetup as <- <- <- <- <- <-.
      apply download_returns_local_file in Hdown as [-> _].
      simpl. split; discriminate.
Defined.

(** ** The engagement sampler *)

(** Follows a run through every answer of the environment and every branch
    of the script. *)
Ltac py_branches env :=
  unfold_py;
  repeat (simpl;
          match goal with
          | H : _ = _ |- _ => progress (rewrite H)
          | |- context [reply env ?h ?c] => destruct (reply env h c) eqn:?
          | |- context [open_for_writing env ?p] =>
              destruct (open_for_writing env p) eqn:?
          | |- context [match ?x with _ => _ end] => is_var x; destruct x
          | |- context [match ?l !! ?i with _ => _ end] => destruct (l !! i) eqn:?
          end);
  simpl.

Lemma get_random_likers_returns (env : Env) (targets : list string) (cl : Client)
    (w : World) :
  exists usernames w',
    get_random_likers_from_targets env targets cl w = (Ok usernames, w') /\
    (length usernames <= 10)%nat.
Proof.
  unfold get_random_likers_from_targets, get_random_likers_try, random_choice.
  py_branches env;
    (eexists _, _; split; [reflexivity|]; simpl; rewrite ?length_take; lia).
Qed.

Lemma get_random_likers_no_posts (env : Env) (targets : list string) (cl : Client)
    (w : World) (i : nat) (target user_id : string) :
  let n := length targets in
  let cid := client_id cl in
  reply env (calls w) (RandBelow n) = Returns i ->
  targets !! (i mod n)%nat = Some target ->
  reply env (calls w ++ [RandBelow n]) (UserIdFromUsername cid target) = Returns user_id ->
  reply env (calls w ++ [RandBelow n; UserIdFromUsername cid target])
    (UserMedias cid user_id 10) = Returns [] ->
  get_random_likers_from_targets env targets cl w
    = (Ok [],
       mkWorld (fs w)
         (stdout w ++ ["Randomly selected username: " +:+ target;
                       "User ID for " +:+ target +:+ ": " +:+ user_id;
                       "No posts found for " +:+ target])
         (calls w ++ [RandBelow n; UserIdFromUsername cid target;
                      UserMedias cid user_id 10])).
Proof.
  intros n cid Hrand Htarget Hid Hmedias. subst n cid.
  unfold get_random_likers_from_targets, get_random_likers_try, random_choice.
  destruct targets as [|t targets]; [discriminate|].
  simpl in Hrand, Htarget, Hid, Hmedias. unfold_py. simpl.
  rewrite Hrand. simpl. rewrite Htarget. simpl. rewrite Hid. simpl.
  rewrite <- app_assoc. simpl. rewrite Hmedias. simpl.
  now rewrite <- !app_assoc.
Qed.

Lemma get_random_likers_catches (env : Env) (targets : list string) (cl : Client)
    (w w1 : World) (e : PyExn) :
  get_random_likers_try env targets cl w = (Raise e, w1) ->
  get_random_likers_from_targets env targets cl w
    = (Ok [],
       mkWorld (fs w1) (stdout w1 ++ ["Error fetching likers: " +:+ exn_msg e])
         (calls w1)).
Proof.
  intros Hraise. unfold get_random_likers_from_targets, try_except.
  now rewrite Hraise.
Qed.

(** C6. [get_random_likers_from_targets] always returns a list, of at most
    ten usernames, whatever the environment answers: an exception inside the
    [try] is turned into the empty list and a printed line.  When the chosen
    account has no posts the result is the empty list, and the likers of no
    post are requested. *)
Theorem get_random_likers_never_raises
    (env : Env) (targets : list string) (cl : Client) (w : World) :
  (exists usernames w',
     get_random_likers_from_targets env targets cl w = (Ok usernames, w') /\
     (length usernames <= 10)%nat) /\
  (forall e w1,
     get_random_likers_try env targets cl w = (Raise e, w1) ->
     get_random_likers_from_targets env targets cl w
       = (Ok [],
          mkWorld (fs w1) (stdout w1 ++ ["Error fetching likers: " +:+ exn_msg e])
            (calls w1))) /\
  (forall i target user_id,
     let n := length targets in
     let cid := client_id cl in
     reply env (calls w) (RandBelow n) = Returns i ->
     targets !! (i mod n)%nat = Some target ->
     reply env (calls w ++ [RandBelow n]) (UserIdFromUsername cid target)
       = Returns user_id ->
     reply env (calls w ++ [RandBelow n; UserIdFromUsername cid target])
       (UserMedias cid user_id 10) = Returns [] ->
     get_random_likers_from_targets env targets cl w
       = (Ok [],
          mkWorld (fs w)
            (stdout w ++ ["Randomly selected username: " +:+ target;
                          "User ID for " +:+ target +:+ ": " +:+ user_id;
                          "No posts found for " +:+ target])
            (calls w ++ [RandBelow n; UserIdFromUsername cid target;
                         UserMedias cid user_id 10]))).
Proof.
  split; [apply get_random_likers_returns|]. split.
  - intros e w1. apply get_random_likers_catches.
  - intros i target user_id. apply get_random_likers_no_posts.
Qed.

Lemma get_random_likers_never_raises_witness :
  let w := start_world ∅ in
  (get_random_likers_from_targets lookup_fails_env target_usernames secret_client w
     = (Ok [],
        mkWorld ∅
          (["Randomly selected username: itstedntracy"]
             ++ ["Error fetching likers: " +:+ "target is gone"])
          [RandBelow 5; UserIdFromUsername 7 "itstedntracy"])) /\
  (get_random_likers_from_targets no_posts_env target_usernames secret_client w
     = (Ok [],
        mkWorld ∅
          ([] ++ ["Randomly selected username: " +:+ "itstedntracy";
                  "User ID for " +:+ "itstedntracy" +:+ ": " +:+ "4242";
                  "No posts found for " +:+ "itstedntracy"])
          ([] ++ [RandBelow 5; UserIdFromUsername 7 "itstedntracy";
                  UserMedias 7 "4242" 10]))).
Proof.
  intros w. split.
  - apply (proj1 (proj2 (get_random_likers_never_raises lookup_fails_env
                           target_usernames secret_client w))
             (mkExn "UserNotFound" "target is gone")
             (mkWorld ∅ ["Randomly selected username: itstedntracy"]
                [RandBelow 5; UserIdFromUsername 7 "itstedntracy"])).
    reflexivity.
  - apply (proj2 (proj2 (get_random_likers_never_raises no_posts_env
                           target_usernames secret_client w))
             1%nat "itstedntracy" "4242"); reflexivity.
Defined.

(** ** Skipping the engagement pass *)

Lemma main_engage_empty (env : Env) (user pass : option string) (w : World) :
  main_engage env user pass [] w = (Ok tt, w).
Proof. reflexivity. Qed.

(** C7. With an empty list of usernames lines 217-220 do nothing.  A run
    that uploaded and cleaned up, and whose sampler then returned the empty
    list, ends in the very state in which the sampler returned: no client is
    created, no login or relogin is made and no further call follows. *)
Theorem main_skips_engagement_on_empty_sample
    (env : Env) (fuel : nat) (w0 : World) :
  (forall user pass w, main_engage env user pass [] w = (Ok tt, w)) /\
  (forall user pass client media_path caption wp w1 w2 w3,
     main_reaches_publish env fuel w0 user pass client media_path caption wp ->
     upload_video_and_story env client media_path caption wp = (Ok tt, w1) ->
     main_cleanup media_path w1 = (Ok tt, w2) ->
     get_random_likers_from_targets env target_usernames client w2 = (Ok [], w3) ->
     main env fuel w0 = (Ok tt, w3)).
Proof.
  split; [intros; apply main_engage_empty|].
  intros user pass client media_path caption wp w1 w2 w3 Hreach Hup Hclean Hsample.
  rewrite (main_from_publish _ _ _ _ _ _ _ _ _ Hreach). unfold main_publish.
  rewrite (bind_ok _ _ _ _ _ Hup), (bind_ok _ _ _ _ _ Hclean),
    (bind_ok _ _ _ _ _ Hsample).
  apply main_engage_empty.
Qed.

Lemma no_posts_env_reaches_publish :
  main_reaches_publish no_posts_env 5 (start_world schedule_file)
    (Some "secret") (Some "secret") secret_client "x.mp4" "hello" at_publish.
Proof. sample_reaches_publish. Qed.

Lemma main_skips_engagement_on_empty_sample_witness :
  main no_posts_env 5 (start_world schedule_file)
    = (Ok tt,
       mkWorld (delete "x.mp4.jpg" (delete "x.mp4" (fs after_upload)))
         (stdout after_upload
            ++ ["Randomly selected username: itstedntracy";
                "User ID for itstedntracy: 4242"; "No posts found for itstedntracy"])
         (calls after_upload
            ++ [RandBelow 5; UserIdFromUsername 7 "itstedntracy";
                UserMedias 7 "4242" 10])).
Proof.
  apply (proj2 (main_skips_engagement_on_empty_sample no_posts_env 5
                  (start_world schedule_file))
           (Some "secret") (Some "secret") secret_client "x.mp4" "hello"
           at_publish after_upload
           (mkWorld (delete "x.mp4.jpg" (delete "x.mp4" (fs after_upload)))
              (stdout after_upload) (calls after_upload))).
  - exact no_posts_env_reaches_publish.
  - vm_compute. reflexivity.
  - vm_compute. reflexivity.
  - vm_compute. reflexivity.
Defined.

(** ** The engagement actor *)

Lemma likes_app (a b : list Call) : likes (a ++ b) = (likes a + likes b)%nat.
Proof.
  induction a as [|c a IH]; simpl; [reflexivity|].
  destruct c; simpl; rewrite IH; reflexivity.
Qed.

(** The loop of lines 172-174 requests one like per post until one fails. *)
Lemma like_each_post (env : Env) (cl : Client) (medias : list Media) (w : World) :
  fst (for_each medias (like_post env cl) w) <> Diverge /\
  exists made,
    calls (snd (for_each medias (like_post env cl) w)) = calls w ++ made /\
    (likes made <= length medias)%nat.
Proof.
  revert w. induction medias as [|media medias IH]; intros w.
  - simpl. split; [discriminate|]. exists []. now rewrite app_nil_r.
  - destruct (reply env (calls w) (MediaLike (client_id cl) (pk media)))
      as [liked|e] eqn:Hlike.
    + assert (Hstep :
        for_each (media :: medias) (like_post env cl) w
          = for_each medias (like_post env cl)
              (mkWorld (fs w) (stdout w ++ ["Liked post: " +:+ pk media])
                 (calls w ++ [MediaLike (client_id cl) (pk media)]))).
      { simpl. unfold like_post. unfold_py. simpl. now rewrite Hlike. }
      rewrite Hstep. destruct (IH (mkWorld (fs w)
                                     (stdout w ++ ["Liked post: " +:+ pk media])
                                     (calls w ++ [MediaLike (client_id cl) (pk media)])))
        as (Hnot & made & Hcalls & Hlikes).
      split; [exact Hnot|].
      exists (MediaLike (client_id cl) (pk media) :: made). simpl in *.
      rewrite Hcalls, <- app_assoc. split; [reflexivity | lia].
    + assert (Hstep :
        for_each (media :: medias) (like_post env cl) w
          = (Raise e, mkWorld (fs w) (stdout w)
                        (calls w ++ [MediaLike (client_id cl) (pk media)]))).
      { simpl. unfold like_post. unfold_py. simpl. now rewrite Hlike. }
      rewrite Hstep. split; [discriminate|].
      exists [MediaLike (client_id cl) (pk media)]. simpl.
      split; [reflexivity | lia].
Qed.

(** The runs of [process_user], by the answers of the environment. *)
Lemma process_user_lookup_fails (env : Env) (cl : Client) (user : string)
    (w : World) (e : PyExn) :
  reply env (calls w) (UserInfoByUsername (client_id cl) user) = Throws e ->
  process_user env cl user w
    = (Raise e,
       mkWorld (fs w) (stdout w) (calls w ++ [UserInfoByUsername (client_id cl) user])).
Proof. intros Hinfo. unfold process_user. now py_run. Qed.

Lemma process_user_skips (env : Env) (cl : Client) (user : string)
    (w : World) (info : UserInfo) :
  reply env (calls w) (UserInfoByUsername (client_id cl) user) = Returns info ->
  is_private info = true \/ (media_count info <= 4)%Z ->
  process_user env cl user w
    = (Ok tt,
       mkWorld (fs w) (stdout w) (calls w ++ [UserInfoByUsername (client_id cl) user])).
Proof.
  intros Hinfo Hskip. unfold process_user. unfold_py. simpl. rewrite Hinfo. simpl.
  destruct (is_private info); simpl; [reflexivity|].
  destruct (Z.gtb_spec (media_count info) 4); [|reflexivity].
  destruct Hskip; [discriminate | lia].
Qed.

Lemma process_user_medias_fail (env : Env) (cl : Client) (user : string)
    (w : World) (info : UserInfo) (e : PyExn) :
  let cid := client_id cl in
  reply env (calls w) (UserInfoByUsername cid user) = Returns info ->
  is_private info = false ->
  (4 < media_count info)%Z ->
  reply env (calls w ++ [UserInfoByUsername cid user])
    (UserMedias cid (user_pk info) 4) = Throws e ->
  process_user env cl user w
    = (Raise e,
       mkWorld (fs w) (stdout w ++ ["Processing public user: " +:+ user])
         (calls w ++ [UserInfoByUsername cid user; UserMedias cid (user_pk info) 4])).
Proof.
  intros cid Hinfo Hpublic Hmany Hmedias. subst cid.
  unfold process_user. unfold_py. simpl. rewrite Hinfo. simpl. rewrite Hpublic. simpl.
  destruct (Z.gtb_spec (media_count info) 4); [|lia]. simpl.
  rewrite Hmedias. simpl. now rewrite <- app_assoc.
Qed.

Lemma process_user_likes (env : Env) (cl : Client) (user : string)
    (w : World) (info : UserInfo) (medias : list Media) :
  let cid := client_id cl in
  reply env (calls w) (UserInfoByUsername cid user) = Returns info ->
  is_private info = false ->
  (4 < media_count info)%Z ->
  reply env (calls w ++ [UserInfoByUsername cid user])
    (UserMedias cid (user_pk info) 4) = Returns medias ->
  process_user env cl user w
    = for_each medias (like_post env cl)
        (mkWorld (fs w) (stdout w ++ ["Processing public user: " +:+ user])
           (calls w ++ [UserInfoByUsername cid user; UserMedias cid (user_pk info) 4])).
Proof.
  intros cid Hinfo Hpublic Hmany Hmedias. subst cid.
  unfold process_user. unfold_py. simpl. rewrite Hinfo. simpl. rewrite Hpublic. simpl.
  destruct (Z.gtb_spec (media_count info) 4); [|lia]. simpl.
  rewrite Hmedias. simpl. now rewrite <- app_assoc.
Qed.

Lemma process_user_segment (env : Env) (cl : Client) (user : string) (w : World) :
  amount_respected env ->
  fst (process_user env cl user w) <> Diverge /\
  exists segment,
    calls (snd (process_user env cl user w)) = calls w ++ segment /\
    user_segment env (client_id cl) (calls w) user segment.
Proof.
  intros Hamount. unfold user_segment.
  destruct (reply env (calls w) (UserInfoByUsername (client_id cl) user))
    as [info|e] eqn:Hinfo.
  2: { rewrite (process_user_lookup_fails env cl user w e Hinfo). simpl.
       split; [discriminate|]. eexists. split; [reflexivity|].
       exists []. repeat split; simpl; try lia; discriminate. }
  destruct (is_private info) eqn:Hprivate.
  { rewrite (process_user_skips env cl user w info Hinfo) by tauto. simpl.
    split; [discriminate|]. eexists. split; [reflexivity|].
    exists []. repeat split; simpl; try lia; discriminate. }
  destruct (Z.le_gt_cases (media_count info) 4) as [Hfew|Hmany].
  { rewrite (process_user_skips env cl user w info Hinfo) by tauto. simpl.
    split; [discriminate|]. eexists. split; [reflexivity|].
    exists []. repeat split; simpl; try lia; discriminate. }
  destruct (reply env (calls w ++ [UserInfoByUsername (client_id cl) user])
              (UserMedias (client_id cl) (user_pk info) 4))
    as [medias|e] eqn:Hmedias.
  2: { rewrite (process_user_medias_fail env cl user w info e) by assumption. simpl.
       split; [discriminate|]. eexists. split; [reflexivity|].
       eexists. split; [reflexivity|]. simpl. split; [lia|]. split.
       - intros info' [= <-] [Hp|Hc]; [congruence | lia].
       - discriminate. }
  rewrite (process_user_likes env cl user w info medias) by assumption.
  match goal with
  | |- context [for_each medias _ ?w1] =>
      destruct (like_each_post env cl medias w1) as (Hnot & made & Hcalls & Hlikes)
  end.
  split; [exact Hnot|]. simpl in Hcalls.
  exists (UserInfoByUsername (client_id cl) user
            :: UserMedias (client_id cl) (user_pk info) 4 :: made).
  split; [rewrite Hcalls, <- !app_assoc; reflexivity|].
  eexists. split; [reflexivity|]. simpl.
  apply Hamount in Hmedias. split; [lia|]. split.
  - intros info' [= <-] [Hp|Hc]; [congruence | lia].
  - discriminate.
Qed.

(** One turn of the loop of lines 166-176. *)
Lemma process_usernames_cons (env : Env) (cl : Client) (user : string)
    (usernames : list string) (w : World) :
  process_usernames env (user :: usernames) cl w
    = match process_user env cl user w with
      | (Ok _, w1) => process_usernames env usernames cl w1
      | (Raise e, w1) =>
          process_usernames env usernames cl
            (mkWorld (fs w1)
               (stdout w1 ++ ["Error processing user " +:+ user +:+ ": " +:+ exn_msg e])
               (calls w1))
      | (Diverge, w1) => (Diverge, w1)
      end.
Proof.
  unfold process_usernames. simpl. unfold bind at 1, try_except at 1.
  destruct (process_user env cl user w) as [[[]|e|] w1]; reflexivity.
Qed.

Lemma process_usernames_engaged (env : Env) (cl : Client) :
  amount_respected env ->
  forall (usernames : list string) (w : World),
    fst (process_usernames env usernames cl w) = Ok tt /\
    exists segments,
      calls (snd (process_usernames env usernames cl w)) = calls w ++ concat segments /\
      engaged env (client_id cl) (calls w) usernames segments.
Proof.
  intros Hamount. induction usernames as [|user usernames IH]; intros w.
  - simpl. split; [reflexivity|]. exists []. simpl. now rewrite app_nil_r.
  - rewrite process_usernames_cons.
    destruct (process_user_segment env cl user w Hamount)
      as (Hnot & segment & Hcalls & Hsegment).
    destruct (process_user env cl user w) as [[[]|e|] w1]; simpl in Hnot, Hcalls;
      [| |congruence].
    + destruct (IH w1) as (Hok & segments & Hcalls' & Hengaged).
      split; [exact Hok|]. exists (segment :: segments). simpl.
      rewrite Hcalls', Hcalls, <- app_assoc. split; [reflexivity|].
      split; [exact Hsegment|]. now rewrite <- Hcalls.
    + match goal with
      | |- context [process_usernames env usernames cl ?w2] =>
          destruct (IH w2) as (Hok & segments & Hcalls' & Hengaged)
      end.
      split; [exact Hok|]. exists (segment :: segments). simpl in *.
      rewrite Hcalls', Hcalls, <- app_assoc. split; [reflexivity|].
      split; [exact Hsegment|]. now rewrite <- Hcalls.
Qed.

(** C5. Provided the library returns at most four posts when four are asked
    for, [process_usernames] ends normally on every list of usernames and
    requests, user after user in the order of the list, the user's
    information and then at most four likes; it requests nothing more for a
    user who is private or has four posts or fewer, or whose lookup fails.
    An exception while one user is processed is printed and the loop goes on
    with the users that remain. *)
Theorem process_usernames_bounded_and_isolated
    (env : Env) (usernames : list string) (cl : Client) (w : World) :
  amount_respected env ->
  (fst (process_usernames env usernames cl w) = Ok tt /\
   exists segments,
     calls (snd (process_usernames env usernames cl w)) = calls w ++ concat segments /\
     engaged env (client_id cl) (calls w) usernames segments) /\
  (forall user remaining e w1,
     usernames = user :: remaining ->
     process_user env cl user w = (Raise e, w1) ->
     process_usernames env usernames cl w
       = process_usernames env remaining cl
           (mkWorld (fs w1)
              (stdout w1 ++ ["Error processing user " +:+ user +:+ ": " +:+ exn_msg e])
              (calls w1))).
Proof.
  intros Hamount. split.
  - now apply process_usernames_engaged.
  - intros user remaining e w1 -> Hraise.
    rewrite process_usernames_cons. now rewrite Hraise.
Qed.

Lemma happy_env_amount_respected : amount_respected happy_env.
Proof.
  intros history cid user_id medias. simpl. intros [= <-]. unfold sample_medias.
  repeat match goal with |- context [String.eqb ?a ?b] => destruct (String.eqb a b) end;
    simpl; lia.
Qed.

Lemma process_usernames_bounded_and_isolated_witness :
  let usernames := ["dave"; "alice"; "bob"; "carol"] in
  let w := start_world ∅ in
  (fst (process_usernames happy_env usernames secret_client w) = Ok tt /\
   exists segments,
     calls (snd (process_usernames happy_env usernames secret_client w))
       = [] ++ concat segments /\
     engaged happy_env 7 [] usernames segments) /\
  process_usernames happy_env usernames secret_client w
    = process_usernames happy_env ["alice"; "bob"; "carol"] secret_client
        (mkWorld ∅ ([] ++ ["Error processing user " +:+ "dave" +:+ ": " +:+ "no such user"])
           [UserInfoByUsername 7 "dave"]).
Proof.
  intros usernames w. split.
  - apply (proj1 (process_usernames_bounded_and_isolated happy_env usernames
                    secret_client w happy_env_amount_respected)).
  - apply (proj2 (process_usernames_bounded_and_isolated happy_env usernames
                    secret_client w happy_env_amount_respected)
             "dave" ["alice"; "bob"; "carol"] (mkExn "UserNotFound" "no such user")
             (mkWorld ∅ [] [UserInfoByUsername 7 "dave"])); reflexivity.
Defined.

(** The sample pass: four likes for the public account, none for the others. *)
Example process_usernames_sample_calls :
  calls (snd (process_usernames happy_env ["dave"; "alice"; "bob"; "carol"]
                secret_client (start_world ∅)))
    = [UserInfoByUsername 7 "dave";
       UserInfoByUsername 7 "alice"; UserMedias 7 "A" 4;
       MediaLike 7 "a1"; MediaLike 7 "a2"; MediaLike 7 "a3"; MediaLike 7 "a4";
       UserInfoByUsername 7 "bob"; UserInfoByUsername 7 "carol"].
Proof. vm_compute. reflexivity. Qed.

(** * Further properties of the script *)

(** ** What each part may touch *)

Section Confined.

Variable env : Env.
Variable touch : string -> Prop.
Variable allowed : Call -> Prop.

Lemma confined_still {A} (m : M A) :
  (forall w, snd (m w) = w) -> confined touch allowed m.
Proof.
  intros Hsame w. rewrite Hsame. split; [reflexivity|].
  exists []. now rewrite app_nil_r.
Qed.

Lemma confined_ret {A} (a : A) : confined touch allowed (ret a).
Proof. now apply confined_still. Qed.

Lemma confined_raise {A} (e : PyExn) : confined touch allowed (@raise A e).
Proof. now apply confined_still. Qed.

Lemma confined_lift {A} (r : Reply A) : confined touch allowed (lift r).
Proof. now apply confined_still. Qed.

Lemma confined_os_path_exists (p : string) : confined touch allowed (os_path_exists p).
Proof. now apply confined_still. Qed.

Lemma confined_read_file (p : string) : confined touch allowed (read_file p).
Proof. apply confined_still. intros w. unfold read_file. now destruct (fs w !! p). Qed.

Lemma confined_print (line : string) : confined touch allowed (print line).
Proof. intros w. split; [reflexivity|]. exists []. simpl. now rewrite app_nil_r. Qed.

Lemma confined_call (c : Call) : allowed c -> confined touch allowed (call env c).
Proof.
  intros Hc w. split; [reflexivity|]. exists [c]. simpl.
  split; [reflexivity | now constructor].
Qed.

Lemma confined_write_file (p content : string) :
  touch p -> confined touch allowed (write_file p content).
Proof.
  intros Hp w. split.
  - intros q Hq. simpl. apply lookup_insert_ne. congruence.
  - exists []. simpl. now rewrite app_nil_r.
Qed.

Lemma confined_append_file (p data : string) :
  touch p -> confined touch allowed (append_file p data).
Proof.
  intros Hp w. split.
  - intros q Hq. simpl. apply lookup_insert_ne. congruence.
  - exists []. simpl. now rewrite app_nil_r.
Qed.

Lemma confined_bind {A B} (m : M A) (k : A -> M B) :
  confined touch allowed m -> (forall a, confined touch allowed (k a)) ->
  confined touch allowed (bind m k).
Proof.
  intros Hm Hk w. destruct (Hm w) as (Hfs & made & Hcalls & Hall). unfold bind.
  destruct (m w) as [[a|e|] w1]; simpl in *; try (split; [exact Hfs | eauto]).
  destruct (Hk a w1) as (Hfs' & made' & Hcalls' & Hall'). split.
  - intros p Hp. now rewrite Hfs', Hfs.
  - exists (made ++ made'). rewrite Hcalls', Hcalls, app_assoc.
    split; [reflexivity | now apply Forall_app].
Qed.

(** The rest of a block may rely on what its first statement returns. *)
Lemma confined_bind_result {A B} (P : A -> Prop) (m : M A) (k : A -> M B) :
  (forall w a w', m w = (Ok a, w') -> P a) ->
  confined touch allowed m -> (forall a, P a -> confined touch allowed (k a)) ->
  confined touch allowed (bind m k).
Proof.
  intros HP Hm Hk w. destruct (Hm w) as (Hfs & made & Hcalls & Hall). unfold bind.
  specialize (HP w).
  destruct (m w) as [[a|e|] w1]; simpl in *; try (split; [exact Hfs | eauto]).
  destruct (Hk a (HP a w1 eq_refl) w1) as (Hfs' & made' & Hcalls' & Hall'). split.
  - intros p Hp. now rewrite Hfs', Hfs.
  - exists (made ++ made'). rewrite Hcalls', Hcalls, app_assoc.
    split; [reflexivity | now apply Forall_app].
Qed.

Lemma confined_try_except {A} (m : M A) (h : PyExn -> M A) :
  confined touch allowed m -> (forall e, confined touch allowed (h e)) ->
  confined touch allowed (try_except m h).
Proof.
  intros Hm Hh w. destruct (Hm w) as (Hfs & made & Hcalls & Hall). unfold try_except.
  destruct (m w) as [[a|e|] w1]; simpl in *; try (split; [exact Hfs | eauto]).
  destruct (Hh e w1) as (Hfs' & made' & Hcalls' & Hall'). split.
  - intros p Hp. now rewrite Hfs', Hfs.
  - exists (made ++ made'). rewrite Hcalls', Hcalls, app_assoc.
    split; [reflexivity | now apply Forall_app].
Qed.

Lemma confined_for_each {A} (l : list A) (body : A -> M unit) :
  (forall x, confined touch allowed (body x)) ->
  confined touch allowed (for_each l body).
Proof.
  intros Hbody. induction l as [|x l IH]; simpl;
    [apply confined_ret | apply confined_bind; auto].
Qed.

End Confined.

Create HintDb confined.
#[export] Hint Resolve confined_ret confined_raise confined_lift confined_print
  confined_os_path_exists confined_read_file : confined.

(** Breaks a statement of the script into its steps; the side conditions on
    calls and written paths are closed by computation. *)
Ltac confined_steps :=
  repeat first
    [ apply confined_bind; [|intros ?]
    | apply confined_try_except; [|intros ?]
    | apply confined_for_each; intros ?
    | solve [auto with confined]
    | match goal with
      | |- confined ?t ?al (call ?e ?c) =>
          refine (confined_call e t al c _); solve [simpl; intuition auto]
      | |- confined _ _ (write_file _ _) =>
          apply confined_write_file; solve [simpl; intuition auto]
      | |- confined _ _ (append_file _ _) =>
          apply confined_append_file; solve [simpl; intuition auto]
      | |- confined _ _ (match ?x with _ => _ end) => destruct x
      | |- confined _ _ (if ?b then _ else _) => destruct b
      end ].

Lemma confined_random_choice (env : Env) (touch : string -> Prop)
    (allowed : Call -> Prop) {A} (seq : list A) :
  (forall n, allowed (RandBelow n)) ->
  confined touch allowed (random_choice env seq).
Proof.
  intros Hrand. destruct seq as [|x seq]; simpl; [apply confined_raise|].
  apply confined_bind; [now apply confined_call|]. intros i.
  destruct (_ !! _); [apply confined_ret | apply confined_raise].
Qed.

Lemma confined_download_chunks (env : Env) (fuel service : nat) (fileId path : string) :
  confined (fun p => p = path) (drive_call service)
    (download_chunks env fuel service fileId path).
Proof.
  induction fuel as [|fuel IH]; simpl; [now apply confined_still|].
  confined_steps.
Qed.

(** [get_closest_media_row] (lines 105-119) reads: whatever the file system
    and pandas answer, no file is changed and nothing is printed, and the
    only requests are the parsing of the schedule and the clock. *)
Theorem get_closest_media_row_reads_only (env : Env) (path : string) (w : World) :
  fs (snd (get_closest_media_row env path w)) = fs w /\
  stdout (snd (get_closest_media_row env path w)) = stdout w /\
  exists made,
    calls (snd (get_closest_media_row env path w)) = calls w ++ made /\
    Forall schedule_call made.
Proof.
  assert (Hconf : confined (fun _ => False) schedule_call (get_closest_media_row env path)).
  { unfold get_closest_media_row. confined_steps. }
  destruct (Hconf w) as (Hfs & Hcalls). split; [|split; [|exact Hcalls]].
  - apply map_eq. intros p. apply Hfs. tauto.
  - unfold get_closest_media_row. unfold_py. simpl.
    destruct (fs w !! path); simpl; [|reflexivity].
    destruct (reply env (calls w) _); simpl; [|reflexivity].
    destruct (to_datetime_column env _); simpl; [|reflexivity].
    destruct (reply env _ DatetimeNowUtc); reflexivity.
Qed.

(** [download_file_from_drive] (lines 42-86), whatever the Drive answers and
    however the run ends: no local file other than [file_name] is created,
    changed or removed, and the only requests are file listings and chunk
    downloads on the given service. *)
Theorem download_file_from_drive_confined
    (env : Env) (fuel service : nat) (folder_name file_name : string) (w : World) :
  (forall other, other <> file_name ->
     fs (snd (download_file_from_drive env fuel service folder_name file_name w)) !! other
       = fs w !! other) /\
  exists made,
    calls (snd (download_file_from_drive env fuel service folder_name file_name w))
      = calls w ++ made /\
    Forall (drive_call service) made.
Proof.
  assert (Hconf : confined (fun p => p = file_name) (drive_call service)
                    (download_file_from_drive env fuel service folder_name file_name)).
  { unfold download_file_from_drive.
    apply confined_bind; [confined_steps | intros [|folder more]]; [confined_steps|].
    apply confined_bind; [confined_steps | intros _].
    apply confined_bind; [confined_steps | intros [|file more']]; [confined_steps|].
    apply confined_bind; [confined_steps | intros _].
    apply (confined_bind_result _ _ (fun path => path = file_name)).
    - intros w1 path w2. unfold FileIO_wb. unfold_py. simpl.
      destruct (open_for_writing env file_name); simpl; congruence.
    - unfold FileIO_wb, open_truncate. confined_steps.
    - intros path ->. confined_steps. apply confined_download_chunks. }
  exact (Hconf w).
Qed.

(** [get_random_likers_from_targets] (lines 122-153), whatever the library
    answers: the local files are left as they are, and the only requests are
    random draws and, on the given client, the look-up of the account, its
    ten latest posts and the likers of one post. *)
Theorem get_random_likers_confined
    (env : Env) (targets : list string) (cl : Client) (w : World) :
  fs (snd (get_random_likers_from_targets env targets cl w)) = fs w /\
  exists made,
    calls (snd (get_random_likers_from_targets env targets cl w)) = calls w ++ made /\
    Forall (sampler_call (client_id cl)) made.
Proof.
  assert (Hconf : confined (fun _ => False) (sampler_call (client_id cl))
                    (get_random_likers_from_targets env targets cl)).
  { unfold get_random_likers_from_targets, get_random_likers_try.
    apply confined_try_except; [|intros e; confined_steps].
    apply confined_bind; [now apply confined_random_choice|]. intros target.
    confined_steps. }
  destruct (Hconf w) as (Hfs & Hcalls). split; [|exact Hcalls].
  apply map_eq. intros p. apply Hfs. tauto.
Qed.

(** [process_usernames] (lines 156-176), whatever the library answers: the
    local files are left as they are, and the only requests, all on the
    given client, are user look-ups, listings of four posts and likes. *)
Theorem process_usernames_confined
    (env : Env) (usernames : list string) (cl : Client) (w : World) :
  fs (snd (process_usernames env usernames cl w)) = fs w /\
  exists made,
    calls (snd (process_usernames env usernames cl w)) = calls w ++ made /\
    Forall (actor_call (client_id cl)) made.
Proof.
  assert (Hconf : confined (fun _ => False) (actor_call (client_id cl))
                    (process_usernames env usernames cl)).
  { unfold process_usernames, process_user, like_post. confined_steps. }
  destruct (Hconf w) as (Hfs & Hcalls). split; [|exact Hcalls].
  apply map_eq. intros p. apply Hfs. tauto.
Qed.

(** ** The session store, further *)

(** [login_with_session], line 27: [load_settings] is called before the
    [try], so that an exception while the stored session is read ends the
    function; neither [relogin] nor the credential login is attempted and
    the session file stays as it is. *)
Theorem login_with_session_load_failure
    (env : Env) (client : Client) (username password : option string)
    (path content : string) (w : World) (e : PyExn) :
  fs w !! path = Some content ->
  reply env (calls w) (LoadSettings (client_id client) content) = Throws e ->
  login_with_session env client username password path w
    = (Raise e,
       mkWorld (fs w) (stdout w) (calls w ++ [LoadSettings (client_id client) content])).
Proof.
  intros Hfile Hload. unfold login_with_session, load_settings. unfold_py. simpl.
  rewrite Hfile. simpl. rewrite Hfile. simpl. rewrite Hload. reflexivity.
Qed.

Lemma login_with_session_load_failure_witness :
  login_with_session corrupt_session_env new_client (Some "teacher") (Some "hunter2")
      SESSION_FILE_PATH (start_world session_file)
    = (Raise (mkExn "JSONDecodeError" "Expecting value"),
       mkWorld session_file [] ([] ++ [LoadSettings 7 "{stale}"])).
Proof.
  apply (login_with_session_load_failure corrupt_session_env new_client
           (Some "teacher") (Some "hunter2") SESSION_FILE_PATH "{stale}"
           (start_world session_file)); reflexivity.
Defined.

(** [login_with_session], lines 36-37: an exception of the credential login
    ends the function before [dump_settings]; no session file is created
    when there was none, and a refused session file keeps its content. *)
Theorem login_with_session_login_failure
    (env : Env) (client : Client) (username password : option string)
    (path : string) (w : World) :
  let cid := client_id client in
  (forall e,
     fs w !! path = None ->
     reply env (calls w) (Login cid username password) = Throws e ->
     login_with_session env client username password path w
       = (Raise e,
          mkWorld (fs w) (stdout w) (calls w ++ [Login cid username password]))) /\
  (forall content e1 e,
     fs w !! path = Some content ->
     reply env (calls w) (LoadSettings cid content) = Returns tt ->
     reply env (calls w ++ [LoadSettings cid content]) (Relogin cid) = Throws e1 ->
     reply env (calls w ++ [LoadSettings cid content; Relogin cid])
       (Login cid username password) = Throws e ->
     login_with_session env client username password path w
       = (Raise e,
          mkWorld (fs w)
            (stdout w
               ++ ["Relogin failed: " +:+ exn_msg e1 +:+ ", performing a fresh login"])
            (calls w ++ [LoadSettings cid content; Relogin cid;
                         Login cid username password]))).
Proof.
  intros cid. subst cid. split.
  - intros e Hfile Hlogin.
    rewrite no_session_file_logs_in by assumption.
    unfold fresh_login. py_run. now destruct w.
  - intros content e1 e Hfile Hload Hre Hlogin.
    rewrite (relogin_failure_falls_back env client username password path w content e1)
      by assumption.
    unfold fresh_login. unfold_py. simpl. rewrite Hlogin. simpl.
    now rewrite <- app_assoc.
Qed.

Lemma login_with_session_login_failure_witness :
  let user := Some "teacher" in
  let pass := Some "wrong" in
  login_with_session locked_out_env new_client user pass SESSION_FILE_PATH
      (start_world ∅)
    = (Raise (mkExn "BadPassword" "bad password"),
       mkWorld ∅ [] ([] ++ [Login 7 user pass])) /\
  login_with_session locked_out_env new_client user pass SESSION_FILE_PATH
      (start_world session_file)
    = (Raise (mkExn "BadPassword" "bad password"),
       mkWorld session_file
         ([] ++ ["Relogin failed: " +:+ "login_required" +:+ ", performing a fresh login"])
         ([] ++ [LoadSettings 7 "{stale}"; Relogin 7; Login 7 user pass])).
Proof.
  intros user pass. split.
  - apply (proj1 (login_with_session_login_failure locked_out_env new_client user pass
                    SESSION_FILE_PATH (start_world ∅))); reflexivity.
  - apply (proj2 (login_with_session_login_failure locked_out_env new_client user pass
                    SESSION_FILE_PATH (start_world session_file))
             "{stale}" (mkExn "LoginRequired" "login_required")); reflexivity.
Defined.

(** Line 25-27: with a session file in place the first request is the
    loading of its content. *)
Lemma login_with_session_loads_first
    (env : Env) (client : Client) (username password : option string)
    (path content : string) (w : World) :
  fs w !! path = Some content ->
  exists made,
    calls (snd (login_with_session env client username password path w))
      = calls w ++ LoadSettings (client_id client) content :: made.
Proof.
  intros Hfile.
  unfold login_with_session, load_settings, fresh_login, dump_settings.
  py_cases env; rewrite <- ?app_assoc; simpl; eexists; reflexivity.
Qed.

(** Every run of [login_with_session] that returns went through line 31 or
    through lines 36-39. *)
Lemma login_with_session_ok_inv
    (env : Env) (client : Client) (username password : option string)
    (path : string) (w w' : World) (c : Client) :
  login_with_session env client username password path w = (Ok c, w') ->
  c = set_credentials client username password /\ is_Some (fs w' !! path).
Proof.
  unfold login_with_session, load_settings, fresh_login, dump_settings.
  destruct (fs w !! path) as [content|] eqn:Hfile; py_cases env;
    intros [= <- <-]; simpl; (split; [reflexivity|]);
    rewrite ?lookup_insert_eq, ?Hfile; eauto.
Qed.

(** [login_with_session], whichever way it took: when it returns, the
    client it returns is the one it was given, with the given user name in
    its [username] attribute and the given password in its [password]
    attribute (lines 22-23), and there is a session file at [path]. *)
Theorem login_with_session_returns_with_session_file
    (env : Env) (client : Client) (username password : option string)
    (path : string) (w w' : World) (c : Client) :
  login_with_session env client username password path w = (Ok c, w') ->
  client_id c = client_id client /\
  client_username c = username /\
  client_password c = password /\
  is_Some (fs w' !! path).
Proof.
  unfold login_with_session, load_settings, fresh_login, dump_settings.
  destruct (fs w !! path) as [content|] eqn:Hfile; py_cases env;
    intros [= <- <-]; simpl.
  all: repeat (split; [reflexivity|]).
  all: rewrite ?lookup_insert_eq, ?Hfile; eauto.
Qed.

Lemma login_with_session_returns_with_session_file_witness :
  exists (c : Client) (w1 : World),
    login_with_session quiet_env (mkClient 7 None (Some "stale")) (Some "teacher")
        (Some "hunter2") SESSION_FILE_PATH (start_world ∅)
      = (Ok c, w1) /\
    client_id c = 7%nat /\
    client_username c = Some "teacher" /\
    client_password c = Some "hunter2" /\
    is_Some (fs w1 !! SESSION_FILE_PATH).
Proof.
  set (user := Some "teacher"). set (pass := Some "hunter2").
  set (w1 := mkWorld (<[SESSION_FILE_PATH := "{}"]> ∅) ["Logged in and session saved"]
               [Login 7 user pass; GetSettings 7]).
  assert (Hrun :
    login_with_session quiet_env (mkClient 7 None (Some "stale")) user pass
        SESSION_FILE_PATH (start_world ∅)
      = (Ok (mkClient 7 user pass), w1))
    by (vm_compute; reflexivity).
  exists (mkClient 7 user pass), w1. split; [exact Hrun|].
  exact (login_with_session_returns_with_session_file quiet_env
           (mkClient 7 None (Some "stale")) user pass SESSION_FILE_PATH (start_world ∅)
           w1 (mkClient 7 user pass) Hrun).
Defined.

(** Two calls of [login_with_session] on the same path, as the main block
    makes them (lines 191 and 219): after the first has returned, the second
    finds the session file, asks the library to load its content first, and
    returns without a credential login when [relogin] returns. *)
Theorem login_with_session_second_call_reuses
    (env : Env) (client client2 : Client) (username password user2 pass2 : option string)
    (path : string) (w w1 : World) (c : Client) :
  login_with_session env client username password path w = (Ok c, w1) ->
  exists content,
    fs w1 !! path = Some content /\
    (exists made,
       calls (snd (login_with_session env client2 user2 pass2 path w1))
         = calls w1 ++ LoadSettings (client_id client2) content :: made) /\
    (forall b,
       reply env (calls w1) (LoadSettings (client_id client2) content) = Returns tt ->
       reply env (calls w1 ++ [LoadSettings (client_id client2) content])
         (Relogin (client_id client2)) = Returns b ->
       login_with_session env client2 user2 pass2 path w1
         = (Ok (set_credentials client2 user2 pass2),
            mkWorld (fs w1) (stdout w1 ++ ["Session loaded successfully"])
              (calls w1 ++ [LoadSettings (client_id client2) content;
                            Relogin (client_id client2)]))).
Proof.
  intros Hfirst.
  apply login_with_session_ok_inv in Hfirst as [_ [content Hfile]].
  exists content. split; [exact Hfile|]. split.
  - now apply login_with_session_loads_first.
  - intros b. now apply relogin_returns.
Qed.

Lemma login_with_session_second_call_reuses_witness :
  let user := Some "teacher" in
  let pass := Some "hunter2" in
  let second := mkClient 8 None None in
  let w1 :=
    mkWorld (<[SESSION_FILE_PATH := "{}"]> ∅) ["Logged in and session saved"]
      [Login 7 user pass; GetSettings 7] in
  exists content,
    fs w1 !! SESSION_FILE_PATH = Some content /\
    (exists made,
       calls (snd (login_with_session quiet_env second user pass SESSION_FILE_PATH w1))
         = calls w1 ++ LoadSettings (client_id second) content :: made) /\
    (forall b,
       reply quiet_env (calls w1) (LoadSettings (client_id second) content) = Returns tt ->
       reply quiet_env (calls w1 ++ [LoadSettings (client_id second) content])
         (Relogin (client_id second)) = Returns b ->
       login_with_session quiet_env second user pass SESSION_FILE_PATH w1
         = (Ok (set_credentials second user pass),
            mkWorld (fs w1) (stdout w1 ++ ["Session loaded successfully"])
              (calls w1 ++ [LoadSettings (client_id second) content;
                            Relogin (client_id second)]))).
Proof.
  intros user pass second w1.
  apply (login_with_session_second_call_reuses quiet_env new_client second user pass
           user pass SESSION_FILE_PATH (start_world ∅) w1
           (set_credentials new_client user pass)).
  vm_compute. reflexivity.
Defined.

(** ** The asset fetcher, further *)

(** The loop of lines 81-83 when [next_chunk] raises after [chunks]. *)
Lemma download_chunks_breaks (env : Env) (service : nat) (fileId path : string)
    (e : PyExn) (chunks : list Chunk) :
  forall (fuel : nat) (w : World) (old : string),
    fs w !! path = Some old ->
    serves env (calls w) service fileId chunks ->
    Forall (fun c => chunk_done c = false) chunks ->
    reply env (calls w ++ repeat (NextChunk service fileId) (length chunks))
      (NextChunk service fileId) = Throws e ->
    (length chunks < fuel)%nat ->
    download_chunks env fuel service fileId path w
      = (Raise e,
         mkWorld (<[path := old +:+ concat_bytes chunks]> (fs w))
           (stdout w ++ map progress_line chunks)
           (calls w ++ repeat (NextChunk service fileId) (S (length chunks)))).
Proof.
  induction chunks as [|c chunks IH]; intros fuel w old Hold Hserve Hmore Hthrow Hfuel;
    (destruct fuel as [|fuel]; [simpl in Hfuel; lia|]); simpl.
  - simpl in Hthrow. rewrite app_nil_r in Hthrow.
    unfold_py. simpl. rewrite Hthrow. simpl.
    rewrite append_empty_r, app_nil_r, (insert_id _ _ _ Hold). reflexivity.
  - destruct Hserve as [Hc Hrest]. inversion Hmore as [|? ? Hnot Hmore']; subst.
    unfold_py. simpl. rewrite Hc, Hold, Hnot. simpl.
    rewrite (IH fuel _ (old +:+ chunk_bytes c)); simpl.
    + rewrite insert_insert_eq, append_assoc, <- !app_assoc. reflexivity.
    + apply lookup_insert_eq.
    + exact Hrest.
    + exact Hmore'.
    + simpl in Hthrow. rewrite <- app_assoc. exact Hthrow.
    + simpl in Hfuel. lia.
Qed.

(** [download_file_from_drive], lines 78-83: once line 78 has opened the
    local file, when [next_chunk] raises in the middle of the download the
    exception leaves the function, and the local file, whatever it held
    before, holds the bytes of the chunks that were written until then; it
    is not removed. *)
Theorem download_failure_leaves_partial_file
    (env : Env) (fuel service : nat) (folder_name file_name : string) (w : World)
    (folder : DriveFile) (more_folders : list DriveFile)
    (file : DriveFile) (more_files : list DriveFile)
    (chunks : list Chunk) (e : PyExn) :
  let list_folders := FilesList service (folder_query folder_name) in
  let list_files := FilesList service (file_query file_name (file_id folder)) in
  let next_chunk := NextChunk service (file_id file) in
  reply env (calls w) list_folders = Returns (folder :: more_folders) ->
  reply env (calls w ++ [list_folders]) list_files = Returns (file :: more_files) ->
  open_for_writing env file_name = Returns tt ->
  serves env (calls w ++ [list_folders; list_files]) service (file_id file) chunks ->
  Forall (fun c => chunk_done c = false) chunks ->
  reply env (calls w ++ [list_folders; list_files] ++ repeat next_chunk (length chunks))
    next_chunk = Throws e ->
  (length chunks < fuel)%nat ->
  exists w',
    download_file_from_drive env fuel service folder_name file_name w = (Raise e, w') /\
    fs w' = <[file_name := concat_bytes chunks]> (fs w) /\
    calls w'
      = calls w ++ [list_folders; list_files] ++ repeat next_chunk (S (length chunks)).
Proof.
  intros list_folders list_files next_chunk Hfolders Hfiles Hopen Hserve Hmore Hthrow
    Hfuel.
  subst list_folders list_files next_chunk.
  unfold download_file_from_drive. unfold_py. simpl.
  rewrite Hfolders. simpl. rewrite Hfiles. simpl. rewrite Hopen. simpl.
  erewrite (download_chunks_breaks env service (file_id file) file_name e chunks
              fuel _ "");
    [ | apply lookup_insert_eq | simpl; rewrite <- app_assoc; exact Hserve
      | exact Hmore | simpl; rewrite <- !app_assoc; exact Hthrow | exact Hfuel ].
  eexists. split; [reflexivity|]. simpl.
  rewrite insert_insert_eq, <- !app_assoc. split; reflexivity.
Qed.

Lemma download_failure_leaves_partial_file_witness :
  exists w',
    download_file_from_drive broken_download_env 5 2 "english_skills_101" "x.mp4"
        (start_world old_video_file) = (Raise (mkExn "HttpError" "connection reset"), w') /\
    fs w' = <["x.mp4" := "RIFF"]> old_video_file /\
    calls w'
      = [] ++ [FilesList 2 (folder_query "english_skills_101");
               FilesList 2 (file_query "x.mp4" "F1")]
          ++ repeat (NextChunk 2 "X1") 2.
Proof.
  apply (download_failure_leaves_partial_file broken_download_env 5 2
           "english_skills_101" "x.mp4" (start_world old_video_file)
           (mkDriveFile "F1" "english_skills_101")
           [mkDriveFile "F2" "english_skills_101"]
           (mkDriveFile "X1" "x.mp4") []
           [mkChunk "RIFF" 50 false] (mkExn "HttpError" "connection reset"));
    [reflexivity | reflexivity | reflexivity | repeat split | repeat constructor
     | reflexivity | simpl; lia].
Defined.

(** [download_file_from_drive], lines 55 and 66: an exception of either
    listing leaves the function at once; the local file is not opened, so
    that no file is created or emptied. *)
Theorem download_query_failure_creates_nothing
    (env : Env) (fuel service : nat) (folder_name file_name : string) (w : World) :
  let list_folders := FilesList service (folder_query folder_name) in
  (forall e,
     reply env (calls w) list_folders = Throws e ->
     download_file_from_drive env fuel service folder_name file_name w
       = (Raise e, mkWorld (fs w) (stdout w) (calls w ++ [list_folders]))) /\
  (forall folder more_folders e,
     let list_files := FilesList service (file_query file_name (file_id folder)) in
     reply env (calls w) list_folders = Returns (folder :: more_folders) ->
     reply env (calls w ++ [list_folders]) list_files = Throws e ->
     download_file_from_drive env fuel service folder_name file_name w
       = (Raise e,
          mkWorld (fs w)
            (stdout w
               ++ ["Found folder '" +:+ folder_name +:+ "' with ID: " +:+ file_id folder])
            (calls w ++ [list_folders; list_files]))).
Proof.
  intros list_folders. subst list_folders. split.
  - intros e Hfolders. unfold download_file_from_drive. now py_run.
  - intros folder more e list_files Hfolders Hfiles. subst list_files.
    unfold download_file_from_drive. py_run. now rewrite <- app_assoc.
Qed.

Lemma download_query_failure_creates_nothing_witness :
  let list_folders := FilesList 2 (folder_query "english_skills_101") in
  let w := start_world old_video_file in
  download_file_from_drive drive_down_env 5 2 "english_skills_101" "x.mp4" w
    = (Raise (mkExn "HttpError" "503"),
       mkWorld old_video_file [] ([] ++ [list_folders])) /\
  download_file_from_drive files_query_fails_env 5 2 "english_skills_101" "x.mp4" w
    = (Raise (mkExn "HttpError" "400"),
       mkWorld old_video_file
         ([] ++ ["Found folder '" +:+ "english_skills_101" +:+ "' with ID: " +:+ "F1"])
         ([] ++ [list_folders; FilesList 2 (file_query "x.mp4" "F1")])).
Proof.
  intros list_folders w. split.
  - apply (proj1 (download_query_failure_creates_nothing drive_down_env 5 2
                    "english_skills_101" "x.mp4" w)); reflexivity.
  - apply (proj2 (download_query_failure_creates_nothing files_query_fails_env 5 2
                    "english_skills_101" "x.mp4" w)
             (mkDriveFile "F1" "english_skills_101")
             [mkDriveFile "F2" "english_skills_101"]); reflexivity.
Defined.

(** ** The schedule selector, further *)

(** [get_closest_media_row], lines 107-119: for a schedule that [read_csv]
    reads under labels that are not repeated, whose date cells pandas all
    reads (an empty one as [NaT]) and whose dated rows are all within the
    range of a 64-bit count of nanoseconds from the reference instant, when
    some row is dated exactly at the reference instant, the row returned is
    the first such row, and its ['Time Delta'] is zero. *)
Theorem get_closest_media_row_exact_match
    (env : Env) (path content : string) (w : World)
    (raw : list (Row string)) (dates : list (option Z)) (now : Z) (k : nat) :
  fs w !! path = Some content ->
  reply env (calls w) (PdReadCsv content) = Returns raw ->
  reply env (calls w ++ [PdReadCsv content]) DatetimeNowUtc = Returns now ->
  Forall2 (fun r t => to_datetime_utc env (Date_Time r) = Returns t) raw dates ->
  (forall j t, dates !! j = Some (Some t) -> (Z.abs (t - now) <= INT64_MAX)%Z) ->
  NoDup (index_labels raw) ->
  dates !! k = Some (Some now) ->
  exists i r,
    get_closest_media_row env path w
      = (Ok (OneRow (mkSeries (Some now) (File_Path r) (Caption r) (Some 0%Z))),
         mkWorld (fs w) (stdout w) (calls w ++ [PdReadCsv content; DatetimeNowUtc])) /\
    raw !! i = Some r /\
    dates !! i = Some (Some now) /\
    (i <= k)%nat /\
    (forall j, (j < i)%nat -> dates !! j <> Some (Some now)).
Proof.
  intros Hfile Hcsv Hnow Hdates Hfit Hdup Hk.
  destruct (closest_media_row_first_least raw dates now
              (Forall2_length _ _ _ Hdates) (ex_intro _ k (ex_intro _ now Hk)) Hfit Hdup)
    as (i & r & t & Hsel & Hr & Hd & _ & Hle & Hlt).
  assert (Hhit : (time_delta now <$> dates) !! k = Some (Some 0%Z))
    by (rewrite list_lookup_fmap, Hk; simpl; now rewrite Z.sub_diag).
  assert (Ht : t = now) by (specialize (Hle k 0%Z Hhit); lia).
  subst t. rewrite Z.sub_diag in *. simpl in *.
  exists i, r.
  rewrite (get_closest_media_row_selects env path content w raw dates now)
    by assumption.
  rewrite Hsel.
  split; [reflexivity|]. split; [exact Hr|]. split; [exact Hd|]. split.
  - destruct (Nat.le_gt_cases i k) as [Hik|Hki]; [exact Hik|].
    specialize (Hlt k 0%Z Hhit Hki). lia.
  - intros j Hji Hj.
    assert (Hzero : (time_delta now <$> dates) !! j = Some (Some 0%Z))
      by (rewrite list_lookup_fmap, Hj; simpl; now rewrite Z.sub_diag).
    specialize (Hlt j 0%Z Hzero Hji). lia.
Qed.

Lemma get_closest_media_row_exact_match_witness :
  exists i r,
    get_closest_media_row (schedule_env rows_with_now) "media_schedule.csv"
        (start_world schedule_file)
      = (Ok (OneRow (mkSeries (Some 1000%Z) (File_Path r) (Caption r) (Some 0%Z))),
         mkWorld schedule_file []
           ([] ++ [PdReadCsv "Date & Time,File Path,Caption"; DatetimeNowUtc])) /\
    rows_with_now !! i = Some r /\
    rows_with_now_dates !! i = Some (Some 1000%Z) /\
    (i <= 3)%nat /\
    (forall j, (j < i)%nat -> rows_with_now_dates !! j <> Some (Some 1000%Z)).
Proof.
  apply (get_closest_media_row_exact_match (schedule_env rows_with_now)
           "media_schedule.csv" "Date & Time,File Path,Caption"
           (start_world schedule_file) rows_with_now rows_with_now_dates 1000 3%nat).
  - reflexivity.
  - reflexivity.
  - reflexivity.
  - repeat constructor.
  - intros [|[|[|[|j]]]] t; simpl; intros [= <-]; vm_compute; discriminate.
  - apply default_index_NoDup. repeat constructor.
  - reflexivity.
Defined.

(** The rows are parsed in order and the first unreadable date decides. *)
Lemma to_datetime_column_first_bad (env : Env) (good : list (Row string))
    (bad : Row string) (rest : list (Row string)) (e : PyExn) :
  Forall (fun r => exists t, to_datetime_utc env (Date_Time r) = Returns t) good ->
  to_datetime_utc env (Date_Time bad) = Throws e ->
  to_datetime_column env (good ++ bad :: rest) = Throws e.
Proof.
  intros Hgood Hbad. induction Hgood as [|r good [t Ht] _ IH]; simpl.
  - now rewrite Hbad.
  - now rewrite Ht, IH.
Qed.

(** [get_closest_media_row], lines 107-110: a schedule that cannot be read
    ends the function with the exception of the step that failed, before
    the clock is read: a missing file before any request, an error of
    [read_csv] or a date that pandas cannot parse after the one request to
    parse the file. *)
Theorem get_closest_media_row_unreadable
    (env : Env) (path : string) (w : World) :
  (fs w !! path = None ->
   get_closest_media_row env path w = (Raise (FileNotFoundError path), w)) /\
  (forall content e,
     fs w !! path = Some content ->
     reply env (calls w) (PdReadCsv content) = Throws e ->
     get_closest_media_row env path w
       = (Raise e, mkWorld (fs w) (stdout w) (calls w ++ [PdReadCsv content]))) /\
  (forall content good bad rest e,
     fs w !! path = Some content ->
     reply env (calls w) (PdReadCsv content) = Returns (good ++ bad :: rest) ->
     Forall (fun r => exists t, to_datetime_utc env (Date_Time r) = Returns t) good ->
     to_datetime_utc env (Date_Time bad) = Throws e ->
     get_closest_media_row env path w
       = (Raise e, mkWorld (fs w) (stdout w) (calls w ++ [PdReadCsv content]))).
Proof.
  split; [|split].
  - intros Hfile. unfold get_closest_media_row, read_file, bind. now rewrite Hfile.
  - intros content e Hfile Hcsv. unfold get_closest_media_row. now py_run.
  - intros content good bad rest e Hfile Hcsv Hgood Hbad.
    pose proof (to_datetime_column_first_bad env good bad rest e Hgood Hbad) as Hcol.
    unfold get_closest_media_row. unfold_py. simpl. rewrite Hfile. simpl.
    rewrite Hcsv. simpl. now rewrite Hcol.
Qed.

Lemma get_closest_media_row_unreadable_witness :
  let parse := PdReadCsv "Date & Time,File Path,Caption" in
  get_closest_media_row quiet_env "media_schedule.csv" (start_world ∅)
    = (Raise (FileNotFoundError "media_schedule.csv"), start_world ∅) /\
  get_closest_media_row csv_broken_env "media_schedule.csv" (start_world schedule_file)
    = (Raise (mkExn "ParserError" "Error tokenizing data"),
       mkWorld schedule_file [] ([] ++ [parse])) /\
  get_closest_media_row (schedule_env rows_with_bad_date) "media_schedule.csv"
      (start_world schedule_file)
    = (Raise (mkExn "DateParseError" "soon"),
       mkWorld schedule_file [] ([] ++ [parse])).
Proof.
  intros parse. split; [|split].
  - apply (proj1 (get_closest_media_row_unreadable quiet_env "media_schedule.csv"
                    (start_world ∅))). reflexivity.
  - apply (proj1 (proj2 (get_closest_media_row_unreadable csv_broken_env
                           "media_schedule.csv" (start_world schedule_file)))
             "Date & Time,File Path,Caption"); reflexivity.
  - apply (proj2 (proj2 (get_closest_media_row_unreadable
                           (schedule_env rows_with_bad_date) "media_schedule.csv"
                           (start_world schedule_file)))
             "Date & Time,File Path,Caption"
             [mkRow "t0" "x.mp4" "hello"] (mkRow "soon" "y.mp4" "when?")
             [mkRow "t1" "z.mp4" "now"]);
      [reflexivity | reflexivity | | reflexivity].
    repeat constructor. exists (Some 0%Z). reflexivity.
Defined.

(** ** The engagement sampler, further *)

(** [get_random_likers_from_targets], lines 134-153, by the step that
    raises: on an empty list of targets [random.choice] raises and no
    request is made; when the account look-up, the listing of the posts or
    the request of the likers raises, nothing is requested after it.  Each
    time the error is printed and the empty list is returned. *)
Theorem get_random_likers_stops_at_failure
    (env : Env) (targets : list string) (cl : Client) (w : World) :
  let n := length targets in
  let cid := client_id cl in
  (targets = [] ->
   get_random_likers_from_targets env targets cl w
     = (Ok [],
        mkWorld (fs w)
          (stdout w ++ ["Error fetching likers: Cannot choose from an empty sequence"])
          (calls w))) /\
  (forall i target e,
     reply env (calls w) (RandBelow n) = Returns i ->
     targets !! (i mod n)%nat = Some target ->
     reply env (calls w ++ [RandBelow n]) (UserIdFromUsername cid target) = Throws e ->
     get_random_likers_from_targets env targets cl w
       = (Ok [],
          mkWorld (fs w)
            (stdout w ++ ["Randomly selected username: " +:+ target;
                          "Error fetching likers: " +:+ exn_msg e])
            (calls w ++ [RandBelow n; UserIdFromUsername cid target]))) /\
  (forall i target user_id e,
     reply env (calls w) (RandBelow n) = Returns i ->
     targets !! (i mod n)%nat = Some target ->
     reply env (calls w ++ [RandBelow n]) (UserIdFromUsername cid target)
       = Returns user_id ->
     reply env (calls w ++ [RandBelow n; UserIdFromUsername cid target])
       (UserMedias cid user_id 10) = Throws e ->
     get_random_likers_from_targets env targets cl w
       = (Ok [],
          mkWorld (fs w)
            (stdout w ++ ["Randomly selected username: " +:+ target;
                          "User ID for " +:+ target +:+ ": " +:+ user_id;
                          "Error fetching likers: " +:+ exn_msg e])
            (calls w ++ [RandBelow n; UserIdFromUsername cid target;
                         UserMedias cid user_id 10]))) /\
  (forall i j target user_id medias post e,
     let lookup :=
       [RandBelow n; UserIdFromUsername cid target; UserMedias cid user_id 10] in
     reply env (calls w) (RandBelow n) = Returns i ->
     targets !! (i mod n)%nat = Some target ->
     reply env (calls w ++ [RandBelow n]) (UserIdFromUsername cid target)
       = Returns user_id ->
     reply env (calls w ++ [RandBelow n; UserIdFromUsername cid target])
       (UserMedias cid user_id 10) = Returns medias ->
     reply env (calls w ++ lookup) (RandBelow (length medias)) = Returns j ->
     medias !! (j mod length medias)%nat = Some post ->
     reply env (calls w ++ lookup ++ [RandBelow (length medias)])
       (MediaLikers cid (pk post)) = Throws e ->
     get_random_likers_from_targets env targets cl w
       = (Ok [],
          mkWorld (fs w)
            (stdout w ++ ["Randomly selected username: " +:+ target;
                          "User ID for " +:+ target +:+ ": " +:+ user_id;
                          "Selected media: " +:+ pk post +:+ ", URL: "
                            +:+ thumbnail_url post;
                          "Error fetching likers: " +:+ exn_msg e])
            (calls w ++ lookup
               ++ [RandBelow (length medias); MediaLikers cid (pk post)]))).
Proof.
  intros n cid. subst n cid. split; [|split; [|split]].
  - intros ->. reflexivity.
  - intros i target e Hrand Htarget Hid.
    unfold get_random_likers_from_targets, get_random_likers_try, random_choice.
    destruct targets as [|t targets]; [discriminate|].
    simpl in Hrand, Htarget, Hid. unfold_py. simpl.
    rewrite Hrand. simpl. rewrite Htarget. simpl. rewrite Hid. simpl.
    now rewrite <- ?app_assoc.
  - intros i target user_id e Hrand Htarget Hid Hmedias.
    unfold get_random_likers_from_targets, get_random_likers_try, random_choice.
    destruct targets as [|t targets]; [discriminate|].
    simpl in Hrand, Htarget, Hid, Hmedias. unfold_py. simpl.
    rewrite Hrand. simpl. rewrite Htarget. simpl. rewrite Hid. simpl.
    rewrite <- ?app_assoc. simpl. rewrite Hmedias. simpl.
    now rewrite <- ?app_assoc.
  - intros i j target user_id medias post e lookup Hrand Htarget Hid Hmedias Hdraw
      Hpost Hlikers. subst lookup.
    unfold get_random_likers_from_targets, get_random_likers_try, random_choice.
    destruct targets as [|t targets]; [discriminate|].
    destruct medias as [|m medias]; [discriminate|].
    simpl in Hrand, Htarget, Hid, Hmedias, Hdraw, Hpost, Hlikers. unfold_py. simpl.
    rewrite Hrand. simpl. rewrite Htarget. simpl. rewrite Hid. simpl.
    rewrite <- ?app_assoc. simpl. rewrite Hmedias. simpl.
    rewrite <- ?app_assoc. simpl. rewrite Hdraw. simpl. rewrite Hpost. simpl.
    rewrite <- ?app_assoc. simpl. rewrite Hlikers. simpl.
    now rewrite <- ?app_assoc.
Qed.

Lemma get_random_likers_stops_at_failure_witness :
  let w := start_world ∅ in
  let lookup := [RandBelow 5; UserIdFromUsername 7 "itstedntracy"; UserMedias 7 "4242" 10] in
  get_random_likers_from_targets happy_env [] secret_client w
    = (Ok [],
       mkWorld ∅ ([] ++ ["Error fetching likers: Cannot choose from an empty sequence"])
         []) /\
  get_random_likers_from_targets lookup_fails_env target_usernames secret_client w
    = (Ok [],
       mkWorld ∅
         ([] ++ ["Randomly selected username: " +:+ "itstedntracy";
                 "Error fetching likers: " +:+ "target is gone"])
         ([] ++ [RandBelow 5; UserIdFromUsername 7 "itstedntracy"])) /\
  get_random_likers_from_targets medias_fail_env target_usernames secret_client w
    = (Ok [],
       mkWorld ∅
         ([] ++ ["Randomly selected username: " +:+ "itstedntracy";
                 "User ID for " +:+ "itstedntracy" +:+ ": " +:+ "4242";
                 "Error fetching likers: " +:+ "private account"])
         ([] ++ lookup)) /\
  get_random_likers_from_targets likers_fail_env target_usernames secret_client w
    = (Ok [],
       mkWorld ∅
         ([] ++ ["Randomly selected username: " +:+ "itstedntracy";
                 "User ID for " +:+ "itstedntracy" +:+ ": " +:+ "4242";
                 "Selected media: " +:+ "p2" +:+ ", URL: " +:+ "u2";
                 "Error fetching likers: " +:+ "rate limited"])
         ([] ++ lookup ++ [RandBelow 2; MediaLikers 7 "p2"])).
Proof.
  intros w lookup. split; [|split; [|split]].
  - apply (proj1 (get_random_likers_stops_at_failure happy_env [] secret_client w)).
    reflexivity.
  - apply (proj1 (proj2 (get_random_likers_stops_at_failure lookup_fails_env
                           target_usernames secret_client w))
             1%nat "itstedntracy" (mkExn "UserNotFound" "target is gone"));
      reflexivity.
  - apply (proj1 (proj2 (proj2 (get_random_likers_stops_at_failure medias_fail_env
                                  target_usernames secret_client w)))
             1%nat "itstedntracy" "4242" (mkExn "PrivateError" "private account"));
      reflexivity.
  - apply (proj2 (proj2 (proj2 (get_random_likers_stops_at_failure likers_fail_env
                                  target_usernames secret_client w)))
             1%nat 1%nat "itstedntracy" "4242"
             [mkMedia "p1" "u1"; mkMedia "p2" "u2"] (mkMedia "p2" "u2")
             (mkExn "ClientThrottledError" "rate limited"));
      reflexivity.
Defined.

(** [get_random_likers_from_targets], lines 135-150, when every request is
    answered and the account has posts: the account is the drawn element of
    the targets, ten posts are asked for, the post is the drawn element of
    the posts returned, and the result is the usernames of its first ten
    likers in the order of the answer. *)
Theorem get_random_likers_first_ten
    (env : Env) (targets : list string) (cl : Client) (w : World)
    (i j : nat) (target user_id : string) (medias : list Media) (post : Media)
    (likers : list UserShort) :
  let n := length targets in
  let cid := client_id cl in
  let lookup := [RandBelow n; UserIdFromUsername cid target; UserMedias cid user_id 10] in
  reply env (calls w) (RandBelow n) = Returns i ->
  targets !! (i mod n)%nat = Some target ->
  reply env (calls w ++ [RandBelow n]) (UserIdFromUsername cid target) = Returns user_id ->
  reply env (calls w ++ [RandBelow n; UserIdFromUsername cid target])
    (UserMedias cid user_id 10) = Returns medias ->
  reply env (calls w ++ lookup) (RandBelow (length medias)) = Returns j ->
  medias !! (j mod length medias)%nat = Some post ->
  reply env (calls w ++ lookup ++ [RandBelow (length medias)]) (MediaLikers cid (pk post))
    = Returns likers ->
  get_random_likers_from_targets env targets cl w
    = (Ok (take 10 (map username likers)),
       mkWorld (fs w)
         (stdout w ++ ["Randomly selected username: " +:+ target;
                       "User ID for " +:+ target +:+ ": " +:+ user_id;
                       "Selected media: " +:+ pk post +:+ ", URL: " +:+ thumbnail_url post])
         (calls w ++ lookup ++ [RandBelow (length medias); MediaLikers cid (pk post)])).
Proof.
  intros n cid lookup Hrand Htarget Hid Hmedias Hdraw Hpost Hlikers.
  subst n cid lookup.
  unfold get_random_likers_from_targets, get_random_likers_try, random_choice.
  destruct targets as [|t targets]; [discriminate|].
  destruct medias as [|m medias]; [discriminate|].
  simpl in Hrand, Htarget, Hid, Hmedias, Hdraw, Hpost, Hlikers. unfold_py. simpl.
  rewrite Hrand. simpl. rewrite Htarget. simpl. rewrite Hid. simpl.
  rewrite <- ?app_assoc. simpl. rewrite Hmedias. simpl.
  rewrite <- ?app_assoc. simpl. rewrite Hdraw. simpl. rewrite Hpost. simpl.
  rewrite <- ?app_assoc. simpl. rewrite Hlikers. simpl.
  now rewrite <- ?app_assoc.
Qed.

Lemma get_random_likers_first_ten_witness :
  get_random_likers_from_targets many_likers_env target_usernames secret_client
      (start_world ∅)
    = (Ok (take 10 (map username twelve_likers)),
       mkWorld ∅
         ([] ++ ["Randomly selected username: " +:+ "itstedntracy";
                 "User ID for " +:+ "itstedntracy" +:+ ": " +:+ "4242";
                 "Selected media: " +:+ "p2" +:+ ", URL: " +:+ "u2"])
         ([] ++ [RandBelow 5; UserIdFromUsername 7 "itstedntracy"; UserMedias 7 "4242" 10]
             ++ [RandBelow 2; MediaLikers 7 "p2"])).
Proof.
  apply (get_random_likers_first_ten many_likers_env target_usernames secret_client
           (start_world ∅) 1 1 "itstedntracy" "4242"
           [mkMedia "p1" "u1"; mkMedia "p2" "u2"] (mkMedia "p2" "u2") twelve_likers);
    reflexivity.
Defined.

(** Of twelve likers the first ten are returned. *)
Example first_ten_of_twelve :
  take 10 (map username twelve_likers)
    = ["l01"; "l02"; "l03"; "l04"; "l05"; "l06"; "l07"; "l08"; "l09"; "l10"].
Proof. reflexivity. Qed.

(** ** The engagement actor, further *)

(** The loop of lines 172-174 when every like is accepted, and when one is
    refused after some were accepted. *)
Lemma like_each_accepted (env : Env) (cl : Client) (medias : list Media) :
  forall w,
    likes_accepted env (calls w) (client_id cl) medias ->
    for_each medias (like_post env cl) w
      = (Ok tt,
         mkWorld (fs w) (stdout w ++ map liked_line medias)
           (calls w ++ map (like_call (client_id cl)) medias)).
Proof.
  induction medias as [|media medias IH]; intros w Hacc; simpl.
  - rewrite !app_nil_r. now destruct w.
  - destruct Hacc as [[liked Hliked] Hrest]. unfold like_call in Hliked.
    unfold like_post at 1. unfold_py. simpl. rewrite Hliked. simpl.
    rewrite IH by exact Hrest. simpl. now rewrite <- !app_assoc.
Qed.

Lemma like_each_refused (env : Env) (cl : Client) (liked : list Media)
    (failed : Media) (unliked : list Media) (e : PyExn) :
  forall w,
    likes_accepted env (calls w) (client_id cl) liked ->
    reply env (calls w ++ map (like_call (client_id cl)) liked)
      (like_call (client_id cl) failed) = Throws e ->
    for_each (liked ++ failed :: unliked) (like_post env cl) w
      = (Raise e,
         mkWorld (fs w) (stdout w ++ map liked_line liked)
           (calls w ++ map (like_call (client_id cl)) liked
              ++ [like_call (client_id cl) failed])).
Proof.
  induction liked as [|media liked IH]; intros w Hacc Hfail; simpl.
  - simpl in Hfail. rewrite app_nil_r in *. unfold like_call in Hfail.
    unfold like_post at 1. unfold_py. simpl. now rewrite Hfail.
  - destruct Hacc as [[ok Hok] Hrest]. unfold like_call in Hok.
    unfold like_post at 1. unfold_py. simpl. rewrite Hok. simpl.
    rewrite IH; simpl.
    + now rewrite <- !app_assoc.
    + exact Hrest.
    + simpl in Hfail. now rewrite <- app_assoc.
Qed.

(** [process_usernames], lines 168-174, for a public user with more than
    four posts whose likes are all accepted: four posts are asked for and
    every post of the answer is liked, in the order of the answer, one
    printed line each. *)
Theorem process_user_likes_every_post
    (env : Env) (cl : Client) (user : string) (w : World)
    (info : UserInfo) (medias : list Media) :
  let cid := client_id cl in
  let lookup := [UserInfoByUsername cid user; UserMedias cid (user_pk info) 4] in
  reply env (calls w) (UserInfoByUsername cid user) = Returns info ->
  is_private info = false ->
  (4 < media_count info)%Z ->
  reply env (calls w ++ [UserInfoByUsername cid user]) (UserMedias cid (user_pk info) 4)
    = Returns medias ->
  likes_accepted env (calls w ++ lookup) cid medias ->
  process_usernames env [user] cl w
    = (Ok tt,
       mkWorld (fs w)
         (stdout w ++ ["Processing public user: " +:+ user] ++ map liked_line medias)
         (calls w ++ lookup ++ map (like_call cid) medias)).
Proof.
  intros cid lookup Hinfo Hpublic Hmany Hmedias Hacc. subst cid lookup.
  rewrite process_usernames_cons.
  rewrite (process_user_likes env cl user w info medias) by assumption.
  rewrite like_each_accepted by exact Hacc. simpl.
  now rewrite <- !app_assoc.
Qed.

Lemma process_user_likes_every_post_witness :
  process_usernames happy_env ["alice"] secret_client (start_world ∅)
    = (Ok tt,
       mkWorld ∅
         ([] ++ ["Processing public user: " +:+ "alice"]
             ++ map liked_line (sample_medias "A"))
         ([] ++ [UserInfoByUsername 7 "alice"; UserMedias 7 "A" 4]
             ++ map (like_call 7) (sample_medias "A"))).
Proof.
  apply (process_user_likes_every_post happy_env secret_client "alice" (start_world ∅)
           (mkUserInfo "A" false 12) (sample_medias "A"));
    [reflexivity | reflexivity | simpl; lia | reflexivity |].
  simpl. repeat split; eexists; reflexivity.
Defined.

(** [process_usernames], lines 167-176, when a like is refused: the
    exception leaves the loop over the posts, so that the posts after the
    refused one are not liked; the error is printed and the loop over the
    users goes on with the next user. *)
Theorem process_usernames_refused_like
    (env : Env) (cl : Client) (user : string) (remaining : list string) (w : World)
    (info : UserInfo) (liked : list Media) (failed : Media) (unliked : list Media)
    (e : PyExn) :
  let cid := client_id cl in
  let lookup := [UserInfoByUsername cid user; UserMedias cid (user_pk info) 4] in
  reply env (calls w) (UserInfoByUsername cid user) = Returns info ->
  is_private info = false ->
  (4 < media_count info)%Z ->
  reply env (calls w ++ [UserInfoByUsername cid user]) (UserMedias cid (user_pk info) 4)
    = Returns (liked ++ failed :: unliked) ->
  likes_accepted env (calls w ++ lookup) cid liked ->
  reply env (calls w ++ lookup ++ map (like_call cid) liked) (like_call cid failed)
    = Throws e ->
  process_usernames env (user :: remaining) cl w
    = process_usernames env remaining cl
        (mkWorld (fs w)
           (stdout w ++ ["Processing public user: " +:+ user] ++ map liked_line liked
              ++ ["Error processing user " +:+ user +:+ ": " +:+ exn_msg e])
           (calls w ++ lookup ++ map (like_call cid) liked ++ [like_call cid failed])).
Proof.
  intros cid lookup Hinfo Hpublic Hmany Hmedias Hacc Hfail. subst cid lookup.
  rewrite process_usernames_cons.
  rewrite (process_user_likes env cl user w info (liked ++ failed :: unliked))
    by assumption.
  rewrite (like_each_refused env cl liked failed unliked e); simpl.
  - now rewrite <- !app_assoc.
  - exact Hacc.
  - rewrite <- app_assoc. exact Hfail.
Qed.

Lemma process_usernames_refused_like_witness :
  process_usernames like_fails_env ["alice"; "bob"] secret_client (start_world ∅)
    = process_usernames like_fails_env ["bob"] secret_client
        (mkWorld ∅
           ([] ++ ["Processing public user: " +:+ "alice"]
               ++ map liked_line [mkMedia "a1" ""; mkMedia "a2" ""]
               ++ ["Error processing user " +:+ "alice" +:+ ": " +:+ "feedback_required"])
           ([] ++ [UserInfoByUsername 7 "alice"; UserMedias 7 "A" 4]
               ++ map (like_call 7) [mkMedia "a1" ""; mkMedia "a2" ""]
               ++ [like_call 7 (mkMedia "a3" "")])).
Proof.
  apply (process_usernames_refused_like like_fails_env secret_client "alice" ["bob"]
           (start_world ∅) (mkUserInfo "A" false 12)
           [mkMedia "a1" ""; mkMedia "a2" ""] (mkMedia "a3" "") [mkMedia "a4" ""]
           (mkExn "FeedbackRequired" "feedback_required"));
    [reflexivity | reflexivity | simpl; lia | reflexivity | | reflexivity].
  simpl. repeat split; eexists; reflexivity.
Defined.

(** The body of the [try] ends, whatever the library answers. *)
Lemma process_user_ends (env : Env) (cl : Client) (user : string) (w : World) :
  fst (process_user env cl user w) <> Diverge.
Proof.
  destruct (reply env (calls w) (UserInfoByUsername (client_id cl) user))
    as [info|e] eqn:Hinfo.
  2: { now rewrite (process_user_lookup_fails env cl user w e Hinfo). }
  destruct (is_private info) eqn:Hprivate.
  { now rewrite (process_user_skips env cl user w info Hinfo) by tauto. }
  destruct (Z.le_gt_cases (media_count info) 4) as [Hfew|Hmany].
  { now rewrite (process_user_skips env cl user w info Hinfo) by tauto. }
  destruct (reply env (calls w ++ [UserInfoByUsername (client_id cl) user])
              (UserMedias (client_id cl) (user_pk info) 4))
    as [medias|e] eqn:Hmedias.
  2: { now rewrite (process_user_medias_fail env cl user w info e) by assumption. }
  rewrite (process_user_likes env cl user w info medias) by assumption.
  apply like_each_post.
Qed.

(** [process_usernames] (lines 166-176) ends normally on every list and for
    every behaviour of the library, and a list processed in one call leaves
    the same state as its two parts processed one after the other on the
    same client. *)
Theorem process_usernames_completes_and_composes
    (env : Env) (cl : Client) :
  (forall usernames w, fst (process_usernames env usernames cl w) = Ok tt) /\
  (forall first second w,
     process_usernames env (first ++ second) cl w
       = process_usernames env second cl (snd (process_usernames env first cl w))).
Proof.
  split.
  - induction usernames as [|user usernames IH]; intros w; [reflexivity|].
    rewrite process_usernames_cons.
    pose proof (process_user_ends env cl user w) as Hends.
    destruct (process_user env cl user w) as [[[]|e|] w1]; simpl in Hends;
      [apply IH | apply IH | congruence].
  - induction first as [|user first IH]; intros second w; [reflexivity|].
    simpl. rewrite !process_usernames_cons.
    pose proof (process_user_ends env cl user w) as Hends.
    destruct (process_user env cl user w) as [[[]|e|] w1]; simpl in Hends;
      [apply IH | apply IH | congruence].
Qed.

(** ** The main block, further *)

Lemma bind_ok_inv {A B} (m : M A) (k : A -> M B) (w w' : World) (b : B) :
  bind m k w = (Ok b, w') ->
  exists a w1, m w = (Ok a, w1) /\ k a w1 = (Ok b, w').
Proof.
  unfold bind. destruct (m w) as [[a|e|] w1]; try discriminate. eauto.
Qed.

Lemma keeps_run {A} (keep : string -> Prop) (m : M A) (w w' : World)
    (r : Outcome A) (p : string) :
  keeps keep m -> m w = (r, w') -> keep p ->
  is_Some (fs w !! p) -> is_Some (fs w' !! p).
Proof. intros Hkeeps Hrun Hp Hfile. specialize (Hkeeps w p Hp Hfile). now rewrite Hrun in Hkeeps. Qed.

(** The main block, lines 208-212: when an upload raises, the run ends
    with that exception before the clean-up, and the downloaded file is
    still on the disk. *)
Theorem main_upload_failure_leaves_asset
    (env : Env) (fuel : nat) (w0 : World) (user pass : option string)
    (client : Client) (media_path caption : string) (wp w1 : World) (e : PyExn) :
  main_reaches_publish env fuel w0 user pass client media_path caption wp ->
  upload_video_and_story env client media_path caption wp = (Raise e, w1) ->
  main env fuel w0 = (Raise e, w1) /\
  is_Some (fs w1 !! media_path).
Proof.
  intros Hreach Hup. split.
  - rewrite (main_from_publish _ _ _ _ _ _ _ _ _ Hreach).
    now apply main_publish_upload_raises.
  - destruct Hreach as (service & row & ws & _ & Hdown & _ & _).
    apply download_returns_local_file in Hdown as [_ Hfile].
    exact (keeps_run (fun _ => True) _ _ _ _ _
             (keeps_upload_video_and_story env _ client media_path caption) Hup I Hfile).
Qed.

Lemma main_upload_failure_leaves_asset_witness :
  let w1 :=
    mkWorld (fs at_publish) (stdout at_publish)
      (calls at_publish ++ [VideoUpload 7 "x.mp4" "hello"]) in
  main refused_env 5 (start_world schedule_file)
    = (Raise (mkExn "VideoNotUpload" "feed upload failed"), w1) /\
  is_Some (fs w1 !! "x.mp4").
Proof.
  intros w1.
  apply (main_upload_failure_leaves_asset refused_env 5 (start_world schedule_file)
           (Some "secret") (Some "secret") secret_client "x.mp4" "hello" at_publish w1).
  - exact refused_env_reaches_publish.
  - vm_compute. reflexivity.
Defined.

(** Lines 182-201 when they succeed: the session file is in place. *)
Lemma main_setup_leaves_session_file (env : Env) (w0 w1 : World)
    (user pass : option string) (client : Client) (service : nat) (row : Selection) :
  main_setup env w0 = (Ok (user, pass, client, service, row), w1) ->
  is_Some (fs w1 !! SESSION_FILE_PATH).
Proof.
  unfold main_setup. intros H.
  apply bind_ok_inv in H as (u & wa & _ & H).
  apply bind_ok_inv in H as (p & wb & _ & H).
  apply bind_ok_inv in H as (info & wc & _ & H).
  apply bind_ok_inv in H as (cid & wd & _ & H).
  apply bind_ok_inv in H as (c & we & Hlogin & H).
  apply login_with_session_ok_inv in Hlogin as [_ Hfile].
  apply bind_ok_inv in H as (credentials & wf & Hcred & H).
  apply bind_ok_inv in H as (svc & wg & Hbuild & H).
  apply bind_ok_inv in H as (media_row & wh & Hrow & H).
  injection H as _ _ _ _ _ <-.
  eapply (keeps_run (fun _ => True)); [apply keeps_get_closest_media_row | exact Hrow | exact I |].
  apply (keeps_run (fun _ => True) _ _ _ _ _
           (keeps_call env _ (DriveBuild credentials)) Hbuild I).
  apply (keeps_run (fun _ => True) _ _ _ _ _
           (keeps_call env _ (CredentialsFromInfo info)) Hcred I).
  exact Hfile.
Qed.

(** The main block (lines 180-220): a run that ends normally leaves a
    session file at ['insta_session.json'] for the next run, unless the
    schedule names that very file (or the file it is the ['.jpg'] companion
    of) as the video, which the clean-up then removes. *)
Theorem main_leaves_session_file
    (env : Env) (fuel : nat) (w0 w' : World) :
  main env fuel w0 = (Ok tt, w') ->
  (forall user pass client media_path caption wp,
     main_reaches_publish env fuel w0 user pass client media_path caption wp ->
     SESSION_FILE_PATH <> media_path /\ SESSION_FILE_PATH <> media_path +:+ ".jpg") ->
  is_Some (fs w' !! SESSION_FILE_PATH).
Proof.
  intros Hmain Hnot. unfold main in Hmain.
  apply bind_ok_inv in Hmain as ([[[[user pass] client] service] row] & w1 & Hsetup & Hrest).
  pose proof (main_setup_leaves_session_file _ _ _ _ _ _ _ _ Hsetup) as Hfile.
  destruct row as [row|label rows]; simpl in Hrest.
  2: { destruct (DataFrame_empty rows); simpl in Hrest; [now injection Hrest as <-|].
       exact (keeps_run (fun _ => True) _ _ _ _ _
                (keeps_main_media_frame env _ fuel user pass client service label rows)
                Hrest I Hfile). }
  unfold main_media in Hrest.
  apply bind_ok_inv in Hrest as (media_path & w2 & Hdown & Hrest).
  assert (Hfile2 : is_Some (fs w2 !! SESSION_FILE_PATH)).
  { exact (keeps_run (fun _ => True) _ _ _ _ _
             (keeps_download_file_from_drive env _ fuel service _ _) Hdown I Hfile). }
  destruct media_path as [path|]; [|now injection Hrest as <-].
  simpl in Hrest. destruct (String.eqb_spec path "") as [->|Hpath]; simpl in Hrest;
    [now injection Hrest as <-|].
  eapply keeps_run; [apply keeps_main_publish | exact Hrest | | exact Hfile2].
  apply (Hnot user pass client path (row_Caption row) w2).
  exists service, row, w1. now repeat split.
Qed.

Lemma main_leaves_session_file_witness :
  is_Some (fs (snd (main happy_env 5 (start_world schedule_file))) !! SESSION_FILE_PATH).
Proof.
  apply (main_leaves_session_file happy_env 5 (start_world schedule_file)
           (snd (main happy_env 5 (start_world schedule_file)))).
  - vm_compute. reflexivity.
  - intros user pass client media_path caption wp
      (service & row & w1 & Hsetup & Hdown & _ & _).
    vm_compute in Hsetup. injection Hsetup as <- <- <- <- <- <-.
    apply download_returns_local_file in Hdown as [-> _].
    simpl. split; discriminate.
Defined.
